(** * Walabot / Philips Hue breathing demo: a shallow embedding

    The development follows [hue_breathing_demo.py]: the Walabot server
    process ([WalaServer.run]), the lamp control loop ([breath_loop]) and
    the start-up / shutdown script ([__main__]).

    Numbers.  Python [int] is [Z].  Python [float] (energy readings, clock
    readings) is modelled by exact rationals [Q]; the operations the program
    uses on them ([+], [-], [*], [/], comparisons, [int(...)], [sum], [max])
    are given their exact meaning, with the exceptions Python raises
    ([ZeroDivisionError] on a zero divisor, [ValueError] on [max([])]).
Module [Binary64] re-evaluates the brightness formula on IEEE binary64
    numbers for the concrete readings used below. *)

From Stdlib Require Import ZArith QArith Qround List String Bool Lia Lqa.
From Stdlib Require Floats.PrimFloat Floats.SpecFloat Floats.FloatOps.
Import ListNotations.

Local Open Scope Z_scope.

(** ** Python values and exceptions *)

Inductive exn : Type :=
| ZeroDivisionError
| ValueError
| NameError
| SystemExit (code : Z).

Inductive result (A : Type) : Type :=
| Ok (a : A)
| Raise (e : exn).

Arguments Ok {A} a.
Arguments Raise {A} e.

(** [len(l)] *)
Definition len {A : Type} (l : list A) : Z := Z.of_nat (List.length l).

(** [l[start:]] for an integer [start]: a negative index counts from the
    end, and both ends are clipped to the list. *)
Definition py_slice_from {A : Type} (start : Z) (l : list A) : list A :=
  let i := if start <? 0 then Z.max (len l + start) 0
           else Z.min start (len l) in
  skipn (Z.to_nat i) l.

(** [l.pop(0)]: removes the first element; [IndexError] on an empty list
    cannot arise at its only call site, which runs after a length test. *)
Definition py_pop0 {A : Type} (l : list A) : list A := skipn 1 l.

(** [sum(l)] for a list of floats: left to right, starting from [0]. *)
Definition py_sum (l : list Q) : Q := fold_left Qplus l 0%Q.

(** [max(l)]: the first maximal element; [ValueError] on an empty list. *)
Definition py_max (l : list Q) : result Q :=
  match l with
  | [] => Raise ValueError
  | x :: r => Ok (fold_left (fun m y => if Qlt_le_dec m y then y else m) r x)
  end.

(** [a / b] on floats: [ZeroDivisionError] when [b] is zero. *)
Definition py_div (a b : Q) : result Q :=
  if Qeq_bool b 0 then Raise ZeroDivisionError else Ok (a / b)%Q.

(** [int(x)] on a float: truncation toward zero. *)
Definition py_int (x : Q) : Z := Z.quot (Qnum x) (Zpos (Qden x)).


(** ** The rolling energy log ([breath_loop], lines 205-210)

<<
        if len(energy_log) <= samples:
            energy_log.append(enrg)
        if len(energy_log) == samples + 1:
            energy_log.pop(0)
        if len(energy_log) > samples:
            energy_log = energy_log[-samples:]
>> *)

Definition roll_log (samples : Z) (energy_log : list Q) (enrg : Q) : list Q :=
  let energy_log :=
    if len energy_log <=? samples then energy_log ++ [enrg] else energy_log in
  let energy_log :=
    if len energy_log =? samples + 1 then py_pop0 energy_log else energy_log in
  let energy_log :=
    if len energy_log >? samples then py_slice_from (- samples) energy_log
    else energy_log in
  energy_log.

(** ** A monad for effects: an explicit world, and Python exceptions

    A computation threads a world [W] (the position in each input source and
    the output trace) and ends with a value, with a raised exception, or
    stops because the loop it runs was given too few steps. *)

Inductive outcome (A : Type) : Type :=
| Done (a : A)
| Raised (e : exn)
| OutOfFuel.

Arguments Done {A} a.
Arguments Raised {A} e.
Arguments OutOfFuel {A}.

Definition M (W A : Type) : Type := W -> outcome A * W.

Definition ret {W A : Type} (a : A) : M W A := fun w => (Done a, w).

Definition bind {W A B : Type} (m : M W A) (k : A -> M W B) : M W B :=
  fun w =>
    match m w with
    | (Done a, w') => k a w'
    | (Raised e, w') => (Raised e, w')
    | (OutOfFuel, w') => (OutOfFuel, w')
    end.

Definition raise {W A : Type} (e : exn) : M W A := fun w => (Raised e, w).

Definition out_of_fuel {W A : Type} : M W A := fun w => (OutOfFuel, w).

Definition lift {W A : Type} (r : result A) : M W A :=
  match r with
  | Ok a => ret a
  | Raise e => raise e
  end.

Declare Scope py_scope.
Delimit Scope py_scope with py.
Notation "x <- m ;; k" := (bind m (fun x => k))
  (at level 61, m at next level, right associativity) : py_scope.
Notation "' p <- m ;; k" := (bind m (fun x => let p := x in k))
  (at level 61, p pattern, m at next level, right associativity) : py_scope.
Notation "m ;;; k" := (bind m (fun _ => k))
  (at level 61, right associativity) : py_scope.
Local Open Scope py_scope.

(** ** Constants of the script *)

Definition SAMPLES : Z := 60.

(** ** The lamp control loop: [breath_loop] *)

Module Client.

(** What the control loop does to the outside: requests on the socket, the
    replies it takes, commands to the bridge, pauses, and console lines. *)
Inductive event : Type :=
| SendString (msg : string)
| RecvPyobj (v : Q)
| RecvString (msg : string)
| SetLight (attr : string) (v : Z)
| Sleep (seconds : Q)
| PrintBreath
| PrintSamples (samples : Z)
| PrintLine (msg : string)
| StartServer
| Connect
| Join
| Terminate.

(** Position in each input source, and the trace so far. *)
Record world : Type := mkWorld {
  clock_reads : nat;
  replies_read : nat;
  keys_read : nat;
  out : list event
}.

(** The local variables of [breath_loop] that live across iterations. *)
Record frame : Type := mkFrame {
  energy_log : list Q;
  prev_bri : Z;
  hue : Z;
  last_peak : Q;
  active : bool;
  samples : Z
}.

Section Environment.

(** The [n]-th call of [time.time()], the [n]-th energy reply of the
    server and the [n]-th key poll ([-1]: no key).  On Windows the poll is
    [ord(getch()) if kbhit() else -1] and a second [getch()] after 224; on
    Linux it is [stdscr.getch()] with [nodelay]. *)
Variable clock : nat -> Q.
Variable energy_reply : nat -> Q.
Variable key_source : nat -> Z.

(** The outcome of [ready.wait(10.0)] and the reply to ['stop']. *)
Variable walabot_is_ready : bool.
Variable stop_reply : string.

Definition emit (e : event) : M world unit :=
  fun w => (Done tt, mkWorld (clock_reads w) (replies_read w) (keys_read w)
                             (out w ++ [e])).

Definition time_time : M world Q :=
  fun w => (Done (clock (clock_reads w)),
            mkWorld (S (clock_reads w)) (replies_read w) (keys_read w) (out w)).

Definition send_string (msg : string) : M world unit := emit (SendString msg).

Definition recv_pyobj : M world Q :=
  fun w => let v := energy_reply (replies_read w) in
           (Done v, mkWorld (clock_reads w) (S (replies_read w)) (keys_read w)
                            (out w ++ [RecvPyobj v])).

Definition recv_string : M world string :=
  emit (RecvString stop_reply) ;;; ret stop_reply.

Definition getch : M world Z :=
  fun w => (Done (key_source (keys_read w)),
            mkWorld (clock_reads w) (replies_read w) (S (keys_read w)) (out w)).

Definition set_light (attr : string) (v : Z) : M world unit :=
  emit (SetLight attr v).

Definition time_sleep (seconds : Q) : M world unit := emit (Sleep seconds).

(** Line 213: [enrg = sum(energy_log[-3:]) / 3] *)
Definition smooth (energy_log : list Q) : Q :=
  (py_sum (py_slice_from (-3) energy_log) / 3)%Q.

(** Lines 216-220:
<<
      max_enrg = max(energy_log)
      min_enrg = 0  # min(energy_log)
      bri = int(195 * ((enrg - min_enrg) / (max_enrg - min_enrg)) + 60)
>>
    The block yields [max_enrg] and [bri]. *)
Definition normalize (enrg : Q) (energy_log : list Q) : result (Q * Z) :=
  match py_max energy_log with
  | Raise e => Raise e
  | Ok max_enrg =>
      let min_enrg := 0%Q in
      match py_div (enrg - min_enrg) (max_enrg - min_enrg) with
      | Raise e => Raise e
      | Ok ratio => Ok (max_enrg, py_int (195 * ratio + 60))
      end
  end.

(** Lines 226-227: [if bri > 90: last_peak = time.time()] *)
Definition capture_peak (bri : Z) (last_peak : Q) : M world Q :=
  if bri >? 90 then time_time else ret last_peak.

(** Lines 231-238:
<<
      if time.time() - last_peak > 13 or max_enrg < 0.0002:
          hue = 65000
      else:
          hue = 43690 + 1600 * int(time.time() - last_peak)
      hue = 65000 if hue > 65000 else hue
>> *)
Definition lamp_hue (last_peak max_enrg : Q) : M world Z :=
  now <- time_time ;;
  hue <- (if Qlt_le_dec 13 (now - last_peak) then ret 65000
          else if Qlt_le_dec max_enrg (2 # 10000) then ret 65000
          else now' <- time_time ;;
               ret (43690 + 1600 * py_int (now' - last_peak))) ;;
  ret (if hue >? 65000 then 65000 else hue).

(** Lines 242-243:
<<
      bri += int((hue - 43690) / 42)
      bri = 255 if bri > 255 else bri
>> *)
Definition boost (bri hue : Z) : Z :=
  let bri := bri + py_int (inject_Z (hue - 43690) / 42) in
  if bri >? 255 then 255 else bri.

(** Lines 246-253; the block yields the new [prev_bri].
<<
      if abs(bri - prev_bri) > 2:
          hue_bridge.set_light(HUE_LAMP, 'bri', bri)
          prev_bri = bri
          time.sleep(0.1)
          hue_bridge.set_light(HUE_LAMP, 'hue', hue)
          time.sleep(0.1)
>> *)
Definition lamp_write (bri hue prev_bri : Z) : M world Z :=
  if Z.abs (bri - prev_bri) >? 2 then
    set_light "bri" bri ;;;
    let prev_bri := bri in
    time_sleep (1 # 10) ;;;
    set_light "hue" hue ;;;
    time_sleep (1 # 10) ;;;
    ret prev_bri
  else ret prev_bri.

(** Lines 257-297: the key-press block; it yields [active] and [samples].
    [ord('q')] is 113, space is 32, a special key arrives as 224 followed
    by 72 (up) or 80 (down). *)
Definition check_keys (active : bool) (samples : Z) : M world (bool * Z) :=
  key <- getch ;;
  if negb (key =? -1) then
    let active := if key =? 113 then false else active in
    samples <- (if key =? 32 then
                  let samples := SAMPLES in
                  emit (PrintSamples samples) ;;; ret samples
                else ret samples) ;;
    if key =? 224 then
      key <- getch ;;
      let samples :=
        if key =? 72 then
          let samples := samples + 10 in
          if samples >? 250 then 250 else samples
        else samples in
      let samples :=
        if key =? 80 then
          let samples := samples - 10 in
          if samples <? 10 then 10 else samples
        else samples in
      emit (PrintSamples samples) ;;;
      ret (active, samples)
    else ret (active, samples)
  else ret (active, samples).

(** One pass through the body of [while active:] (lines 198-297). *)
Definition breath_iter (s : frame) : M world frame :=
  send_string "energy" ;;;
  enrg <- recv_pyobj ;;
  let energy_log := roll_log (samples s) (energy_log s) enrg in
  let enrg := smooth energy_log in
  '(max_enrg, bri) <- lift (normalize enrg energy_log) ;;
  last_peak <- capture_peak bri (last_peak s) ;;
  hue <- lamp_hue last_peak max_enrg ;;
  let bri := boost bri hue in
  prev_bri <- lamp_write bri hue (prev_bri s) ;;
  '(active, samples) <- check_keys (active s) (samples s) ;;
  ret (mkFrame energy_log prev_bri hue last_peak active samples).

(** [while active: ...], given [fuel] passes. *)
Fixpoint breath_while (fuel : nat) (s : frame) : M world frame :=
  if active s then
    match fuel with
    | O => out_of_fuel
    | S fuel => s' <- breath_iter s ;; breath_while fuel s'
    end
  else ret s.

(** The loop after at most [n] passes: the states it goes through. *)
Fixpoint breath_passes (n : nat) (s : frame) : M world frame :=
  match n with
  | O => ret s
  | S n =>
      if active s then s' <- breath_iter s ;; breath_passes n s' else ret s
  end.

(** Lines 187-189: [energy_log.append(socket.recv_pyobj())], [n] times. *)
Fixpoint prefill (n : nat) (energy_log : list Q) : M world (list Q) :=
  match n with
  | O => ret energy_log
  | S n =>
      send_string "energy" ;;;
      v <- recv_pyobj ;;
      prefill n (energy_log ++ [v])
  end.

(** Lines 174-194: everything between the connection to the bridge and the
    control loop; it yields the variables the loop starts from. *)
Definition breath_setup : M world frame :=
  let energy_log := [] in
  let prev_bri := 0 in
  let hue := 43690 in
  set_light "bri" 150 ;;;
  set_light "hue" hue ;;;
  set_light "sat" 250 ;;;
  emit PrintBreath ;;;
  energy_log <- prefill 5 energy_log ;;
  last_peak <- time_time ;;
  let active := true in
  let samples := SAMPLES in
  ret (mkFrame energy_log prev_bri hue last_peak active samples).

Definition breath_loop (fuel : nat) : M world unit :=
  s <- breath_setup ;;
  breath_while fuel s ;;;
  ret tt.

(** [sys.exit(code)] *)
Definition sys_exit {A : Type} (code : Z) : M world A :=
  raise (SystemExit code).

(** Lines 331-343: the shutdown handshake. *)
Definition shutdown : M world unit :=
  send_string "stop" ;;;
  stopped <- recv_string ;;
  (if String.eqb stopped "stopped" then
     emit Join ;;; emit (PrintLine "Done!")
   else
     emit Terminate ;;; sys_exit 1) ;;;
  sys_exit 0.

(** The script ([__main__], lines 300-343). *)
Definition main (fuel : nat) : M world unit :=
  emit StartServer ;;;
  emit (PrintLine "Starting capture") ;;;
  emit Connect ;;;
  (if walabot_is_ready then
     emit (PrintLine "Starting breathing monitor") ;;;
     breath_loop fuel
   else
     emit (PrintLine "Timed-out on Walabot setup.") ;;;
     sys_exit 1) ;;;
  shutdown.

End Environment.

Definition world0 : world := mkWorld 0 0 0 [].

End Client.

(** ** The Walabot server: [WalaServer.run] *)

Module Server.

(** What the server's main loop does to the outside. *)
Inductive event : Type :=
| Trigger
| GetImageEnergy (v : Q)
| SendPyobj (v : Q)
| SendString (msg : string).

(** Position in each input source, and the trace so far. *)
Record world : Type := mkWorld {
  polls : nat;
  captures : nat;
  out : list event
}.

(** The local variables of [run] from line 111 on.  [energy] is assigned
    only in the handler of [zmq.error.Again]: until then the name is
    unbound, which [None] stands for. *)
Record frame : Type := mkFrame {
  capture : bool;
  message : string;
  energy : option Q
}.

Section Environment.

(** The [n]-th [recv_string(flags=zmq.NOBLOCK)]: [None] when it raises
    [zmq.error.Again] (no request pending); and the [n]-th reading of
    [WalabotAPI.GetImageEnergy()]. *)
Variable request : nat -> option string.
Variable image_energy : nat -> Q.

Definition emit (e : event) : M world unit :=
  fun w => (Done tt, mkWorld (polls w) (captures w) (out w ++ [e])).

Definition recv_string_noblock : M world (option string) :=
  fun w => (Done (request (polls w)),
            mkWorld (S (polls w)) (captures w) (out w)).

Definition walabot_trigger : M world unit := emit Trigger.

Definition walabot_get_image_energy : M world Q :=
  fun w => let v := image_energy (captures w) in
           (Done v, mkWorld (polls w) (S (captures w))
                            (out w ++ [GetImageEnergy v])).

(** Reading the variable [energy]: [NameError] while it is unbound. *)
Definition read_energy (s : frame) : M world Q :=
  match energy s with
  | Some v => ret v
  | None => raise NameError
  end.

(** One pass through the body of [while capture:] (lines 117-136). *)
Definition run_iter (s : frame) : M world frame :=
  r <- recv_string_noblock ;;
  s <- (match r with
        | Some msg => ret (mkFrame (capture s) msg (energy s))
        | None =>
            walabot_trigger ;;;
            v <- walabot_get_image_energy ;;
            ret (mkFrame (capture s) (message s) (Some v))
        end) ;;
  s <- (if String.eqb (message s) "stop" then
          ret (mkFrame false (message s) (energy s))
        else if String.eqb (message s) "energy" then
          v <- read_energy s ;;
          emit (SendPyobj v) ;;;
          ret s
        else ret s) ;;
  ret (mkFrame (capture s) "" (energy s)).

(** [while capture: ...], given [fuel] passes. *)
Fixpoint run_while (fuel : nat) (s : frame) : M world frame :=
  if capture s then
    match fuel with
    | O => out_of_fuel
    | S fuel => s' <- run_iter s ;; run_while fuel s'
    end
  else ret s.

(** Lines 111-112: [capture = True], [message = ''], [energy] unbound. *)
Definition frame0 : frame := mkFrame true "" None.

(** The loop after at most [n] passes: the states it goes through. *)
Fixpoint run_passes (n : nat) (s : frame) : M world frame :=
  match n with
  | O => ret s
  | S n =>
      if capture s then s' <- run_iter s ;; run_passes n s' else ret s
  end.

(** Lines 111-138: the main loop and the final ['stopped'] reply. *)
Definition run (fuel : nat) : M world unit :=
  run_while fuel frame0 ;;;
  emit (SendString "stopped").

End Environment.

Definition world0 : world := mkWorld 0 0 [].

End Server.

(** ** The Walabot server: construction, start-up and [stop] *)

Module Startup.

(** Exceptions of this part of the class. *)
Inductive error : Type :=
| IndexError
| AttributeError (name : string).

(** Values held in the attributes of a [WalaServer] object. *)
Inductive value : Type :=
| VEvent
| VArena (arena : list (Z * Z * Z))
| VSocket.

(** The instance dictionary: the attributes assigned through [self].  The
    attributes [multiprocessing.Process] keeps for itself all start with an
    underscore and are left out. *)
Definition object : Type := list (string * value).

Fixpoint getattr (self : object) (name : string) : option value :=
  match self with
  | [] => None
  | (n, v) :: rest => if String.eqb n name then Some v else getattr rest name
  end.

Definition setattr (self : object) (name : string) (v : value) : object :=
  (name, v) :: self.

(** Calls into the Walabot API, the socket and the readiness event, and
    console lines. *)
Inductive event : Type :=
| Print (line : string)
| PrintConnectFailed (code : Z)
| ApiInit
| ApiInitialize
| ConnectAny
| SetProfile
| SetArenaR (lo hi res : Z)
| SetArenaPhi (lo hi res : Z)
| SetArenaTheta (lo hi res : Z)
| SetDynamicImageFilter
| Start
| StartCalibration
| Bind (endpoint : string)
| ReadySet
| Stop
| Disconnect.

(** How the part of [run] before the main loop ends: it returns, it raises,
    or it goes on to the main loop. *)
Inductive status : Type :=
| Returned
| Failed (e : error)
| Serving.

(** Lines 65-69: [__init__] *)
Definition init (arena : list (Z * Z * Z)) : object :=
  setattr (setattr [] "ready" VEvent) "arena" (VArena arena).

(** [self.arena[i]]: [AttributeError] without the attribute, [IndexError]
    past the end of the list. *)
Definition arena_item (self : object) (i : nat) : error + (Z * Z * Z) :=
  match getattr self "arena" with
  | Some (VArena arena) =>
      match nth_error arena i with
      | Some range => inr range
      | None => inl IndexError
      end
  | _ => inl (AttributeError "arena")
  end.

(** Lines 74-110: [run] up to [self.ready.set()].  [connect_error] is the
    code of the [WalabotError] that [ConnectAny] raises, if it does. *)
Definition run_startup (connect_error : option Z) (self : object)
  : object * list event * status :=
  let out := [Print "Initialize API"; ApiInit; ApiInitialize; ConnectAny] in
  match connect_error with
  | Some code => (self, out ++ [PrintConnectFailed code], Returned)
  | None =>
      let out := out ++ [Print "Connected to Walabot"; SetProfile] in
      match arena_item self 0 with
      | inl e => (self, out, Failed e)
      | inr (lo, hi, res) =>
          let out := out ++ [SetArenaR lo hi res] in
          match arena_item self 1 with
          | inl e => (self, out, Failed e)
          | inr (lo, hi, res) =>
              let out := out ++ [SetArenaPhi lo hi res] in
              match arena_item self 2 with
              | inl e => (self, out, Failed e)
              | inr (lo, hi, res) =>
                  let out := out ++ [SetArenaTheta lo hi res] in
                  let out := out ++ [Print "Arena set";
                                     SetDynamicImageFilter;
                                     Start; StartCalibration] in
                  let self := setattr self "socket" VSocket in
                  let out := out ++ [Bind "tcp://*:5556";
                                     Print "Walabot server started"] in
                  match getattr self "ready" with
                  | Some _ => (self, out ++ [ReadySet], Serving)
                  | None => (self, out, Failed (AttributeError "ready"))
                  end
              end
          end
      end
  end.

(** Lines 140-143: [stop]
<<
        self.WalabotAPI.Stop()
        self.WalabotAPI.Disconnect()
>> *)
Definition stop (self : object) : list event * option error :=
  match getattr self "WalabotAPI" with
  | Some _ => ([Stop; Disconnect], None)
  | None => ([], Some (AttributeError "WalabotAPI"))
  end.

(** The scan arena of the script, line 53. *)
Definition ARENA : list (Z * Z * Z) := [(20, 80, 1); (-4, 4, 1); (-4, 4, 1)].

End Startup.

(** ** The brightness formula on IEEE binary64 numbers *)

Module Binary64.

Import PrimFloat SpecFloat FloatOps.

(** [int(x)] on a finite binary64 number: truncation toward zero;
    [ValueError] for NaN (Python raises [OverflowError] for infinities,
    which the readings below do not produce). *)
Definition py_int (x : float) : result Z :=
  match Prim2SF x with
  | S754_zero _ => Ok 0
  | S754_finite sign m e =>
      let mag := match e with
                 | Zpos p => Z.shiftl (Zpos m) (Zpos p)
                 | Z0 => Zpos m
                 | Zneg p => Z.shiftr (Zpos m) (Zpos p)
                 end in
      Ok (if sign then - mag else mag)
  | S754_infinity _ => Raise ValueError
  | S754_nan => Raise ValueError
  end.

(** [bri = int(195 * ((enrg - min_enrg) / (max_enrg - min_enrg)) + 60)]
    with [min_enrg = 0] converted to [0.0] by the subtraction. *)
Definition brightness (enrg max_enrg : float) : result Z :=
  let min_enrg := 0%float in
  let den := (max_enrg - min_enrg)%float in
  if PrimFloat.eqb den 0 then Raise ZeroDivisionError
  else py_int (195 * ((enrg - min_enrg) / den) + 60)%float.

(** The binary64 numbers nearest to 0.0004 and 0.0008. *)
#[warnings="-inexact-float"]
Definition smoothed_example : float := 0.0004%float.
#[warnings="-inexact-float"]
Definition max_example : float := 0.0008%float.

End Binary64.

(** ** Worlds and traces used in the statements below *)

(** The world after the request/reply exchange that opens an iteration. *)
Definition after_exchange (energy_reply : nat -> Q) (w : Client.world)
  : Client.world :=
  Client.mkWorld (Client.clock_reads w) (S (Client.replies_read w))
    (Client.keys_read w)
    ((Client.out w ++ [Client.SendString "energy"])
       ++ [Client.RecvPyobj (energy_reply (Client.replies_read w))]).

(** Line 238, [hue = 65000 if hue > 65000 else hue], as a function. *)
Definition clamp_hue (hue : Z) : Z := if hue >? 65000 then 65000 else hue.

(** The control loop after its set-up and at most [n] passes, started in
    the empty world. *)
Definition loop_after (clock energy_reply : nat -> Q) (key_source : nat -> Z)
  (n : nat) : outcome Client.frame * Client.world :=
  bind (Client.breath_setup clock energy_reply)
       (Client.breath_passes clock energy_reply key_source n) Client.world0.

(** What holds of the server's variables at the head of its loop: no message
    is held over, and [energy] is bound exactly when a capture was made, to
    the reading of the latest one. *)
Definition server_inv (image_energy : nat -> Q) (s : Server.frame)
  (w : Server.world) : Prop :=
  Server.message s = ""%string /\
  Server.energy s = match Server.captures w with
                    | O => None
                    | S c => Some (image_energy c)
                    end.

(** The world with the events [evs] added to the trace. *)
Definition with_events (w : Client.world) (evs : list Client.event)
  : Client.world :=
  Client.mkWorld (Client.clock_reads w) (Client.replies_read w)
    (Client.keys_read w) (Client.out w ++ evs).

(** The world in which [__main__] enters [breath_loop]. *)
Definition monitor_start : Client.world :=
  with_events Client.world0
    [Client.StartServer; Client.PrintLine "Starting capture"; Client.Connect;
     Client.PrintLine "Starting breathing monitor"].

(** ** Concrete environments used in the examples below *)

Module Examples.

(** A sensor that reads no energy at all, a clock that advances one
    second per reading, and an idle keyboard. *)
Definition silent_replies (n : nat) : Q := 0%Q.
Definition ticking_clock (n : nat) : Q := inject_Z (Z.of_nat n).
Definition no_keys (n : nat) : Z := -1.

(** Readings 1, 2, 3, ...: each reply can be told from the others. *)
Definition counting_replies (n : nat) : Q := inject_Z (Z.of_nat n + 1).

(** Eight idle polls, then five times the down arrow (224 then 80), then
    idle again. *)
Definition five_downs (n : nat) : Z :=
  nth n [-1; -1; -1; -1; -1; -1; -1; -1;
         224; 80; 224; 80; 224; 80; 224; 80; 224; 80] (-1).

(** Key polls given by a finite list, idle afterwards. *)
Definition keys_of (l : list Z) (n : nat) : Z := nth n l (-1).


(** Three up arrows, one per pass of the loop, then eight down arrows. *)
Definition three_ups_eight_downs : nat -> Z :=
keys_of [224; 72; 224; 72; 224; 72;
         224; 80; 224; 80; 224; 80; 224; 80;
         224; 80; 224; 80; 224; 80; 224; 80].

(** A loop state right after the capacity was cut to 10 with twelve
    samples in the window. *)
Definition cut_frame : Client.frame :=
  Client.mkFrame [1; 2; 3; 4; 5; 6; 7; 8; 9; 10; 11; 12]%Q
    0 43690 0%Q true 10.

End Examples.

(** ** Predicates on runs of the control loop *)

(** The clock never runs backwards. *)
Definition monotone_clock (clock : nat -> Q) : Prop :=
  forall i j : nat, (i <= j)%nat -> (clock i <= clock j)%Q.

(** The sensor never reports a negative energy. *)
Definition nonneg_replies (energy_reply : nat -> Q) : Prop :=
  forall i : nat, (0 <= energy_reply i)%Q.

(** A command to the bridge whose brightness is at most 255 and whose hue is
    at most 65000. *)
Definition lamp_capped (e : Client.event) : Prop :=
  match e with
  | Client.SetLight attr v =>
      (attr = "bri"%string -> v <= 255) /\
      (attr = "hue"%string -> v <= 65000)
  | _ => True
  end.

(** A command to the bridge whose brightness lies in 60..255 and whose hue
    lies in 43690..65000. *)
Definition lamp_in_range (e : Client.event) : Prop :=
  match e with
  | Client.SetLight attr v =>
      (attr = "bri"%string -> 60 <= v <= 255) /\
      (attr = "hue"%string -> 43690 <= v <= 65000)
  | _ => True
  end.

(** Events on the socket. *)
Definition is_socket_event (e : Client.event) : bool :=
  match e with
  | Client.SendString _ | Client.RecvPyobj _ | Client.RecvString _ => true
  | _ => false
  end.

(** The first [n] request/reply exchanges with the server. *)
Definition exchanges (energy_reply : nat -> Q) (n : nat)
  : list Client.event :=
  flat_map (fun i => [Client.SendString "energy";
                      Client.RecvPyobj (energy_reply i)]) (seq 0 n).

(** What the key block prints: the capacity, after space or a special
    key. *)
Definition key_prints (key : Z) (samples : Z) : list Client.event :=
  if (key =? 32) || (key =? 224) then [Client.PrintSamples samples] else [].

(** What the lamp block sends when it sends. *)
Definition lamp_commands (bri hue : Z) : list Client.event :=
  [Client.SetLight "bri" bri; Client.Sleep (1 # 10);
   Client.SetLight "hue" hue; Client.Sleep (1 # 10)].

(** The capacity after the second byte [key] of a special key. *)
Definition arrow_capacity (key samples : Z) : Z :=
  let samples :=
    if key =? 72 then
      let samples := samples + 10 in
      if samples >? 250 then 250 else samples
    else samples in
  if key =? 80 then
    let samples := samples - 10 in
    if samples <? 10 then 10 else samples
  else samples.

(** ** One pass of the control loop, written out

    The values a pass computes and the world it leaves, as plain functions
    of the variables and the world at its start; [breath_iter_run] below
    shows that [Client.breath_iter] computes exactly these. *)

Section PassWrittenOut.

Variable clock : nat -> Q.
Variable energy_reply : nat -> Q.
Variable key_source : nat -> Z.

(** The peak time after lines 226-227, and the clock readings used so far. *)
Definition peak_time (k : nat) (bri : Z) (last_peak : Q) : Q :=
  if bri >? 90 then clock k else last_peak.

Definition peak_reads (k : nat) (bri : Z) : nat :=
  if bri >? 90 then S k else k.

(** The hue after lines 231-238, and the clock readings used so far. *)
Definition hue_value (k : nat) (last_peak max_enrg : Q) : Z :=
  if Qlt_le_dec 13 (clock k - last_peak) then 65000
  else if Qlt_le_dec max_enrg (2 # 10000) then 65000
  else clamp_hue (43690 + 1600 * py_int (clock (S k) - last_peak)).

Definition hue_reads (k : nat) (last_peak max_enrg : Q) : nat :=
  if Qlt_le_dec 13 (clock k - last_peak) then S k
  else if Qlt_le_dec max_enrg (2 # 10000) then S k
  else S (S k).

(** Whether lines 246-253 write to the lamp. *)
Definition lamp_sent (bri prev_bri : Z) : bool := Z.abs (bri - prev_bri) >? 2.

(** [active], [samples] and the key polls used after lines 257-297. *)
Definition key_active (key : Z) (active : bool) : bool :=
  if key =? 113 then false else active.

Definition key_capacity (key key2 samples : Z) : Z :=
  if key =? -1 then samples
  else if key =? 32 then SAMPLES
  else if key =? 224 then arrow_capacity key2 samples
  else samples.

Definition key_polls (key : Z) (k : nat) : nat :=
  if key =? 224 then S (S k) else S k.

(** The outcome of a pass started with variables [s] in world [w]. *)
Definition pass_result (s : Client.frame) (w : Client.world)
  : outcome Client.frame * Client.world :=
  let sample := energy_reply (Client.replies_read w) in
  let log := roll_log (Client.samples s) (Client.energy_log s) sample in
  match Client.normalize (Client.smooth log) log with
  | Raise e => (Raised e, after_exchange energy_reply w)
  | Ok (max_enrg, bri0) =>
      let k := Client.clock_reads w in
      let last_peak := peak_time k bri0 (Client.last_peak s) in
      let k1 := peak_reads k bri0 in
      let hue := hue_value k1 last_peak max_enrg in
      let k2 := hue_reads k1 last_peak max_enrg in
      let bri := Client.boost bri0 hue in
      let sent := lamp_sent bri (Client.prev_bri s) in
      let key := key_source (Client.keys_read w) in
      let key2 := key_source (S (Client.keys_read w)) in
      let samples := key_capacity key key2 (Client.samples s) in
      (Done (Client.mkFrame log
               (if sent then bri else Client.prev_bri s)
               hue last_peak
               (key_active key (Client.active s))
               samples),
       Client.mkWorld k2 (S (Client.replies_read w))
         (key_polls key (Client.keys_read w))
         (Client.out w
            ++ [Client.SendString "energy"; Client.RecvPyobj sample]
            ++ (if sent then lamp_commands bri hue else [])
            ++ key_prints key samples))
  end.

End PassWrittenOut.

(** ** The control loop right after its set-up *)

(** The variables and the world [Client.breath_setup] leaves when started in
    the empty world. *)
Definition setup_frame (clock energy_reply : nat -> Q) : Client.frame :=
  Client.mkFrame
    [energy_reply 0%nat; energy_reply 1%nat; energy_reply 2%nat;
     energy_reply 3%nat; energy_reply 4%nat]
    0 43690 (clock 0%nat) true SAMPLES.

Definition setup_world (energy_reply : nat -> Q) : Client.world :=
  Client.mkWorld 1 5 0
    ([Client.SetLight "bri" 150; Client.SetLight "hue" 43690;
      Client.SetLight "sat" 250; Client.PrintBreath]
       ++ exchanges energy_reply 5).

(** The capacity is one the keys allow, and the window holds between 5 and
    250 samples. *)
Definition sized (s : Client.frame) : Prop :=
  10 <= Client.samples s <= 250 /\ 5 <= len (Client.energy_log s) <= 250.

(** The hue and the cached brightness are not above what the bridge takes,
    and no command sent so far was. *)
Definition lamp_safe (s : Client.frame) (w : Client.world) : Prop :=
  Client.hue s <= 65000 /\ Client.prev_bri s <= 255 /\
  Forall lamp_capped (Client.out w).

(** What holds along a run with a clock that never runs backwards and a
    sensor that never reads a negative energy: sizes as in [sized], no
    negative sample in the window, the last peak taken from an earlier
    clock reading, and hue and commands in range. *)
Definition well_lit (clock : nat -> Q) (s : Client.frame) (w : Client.world)
  : Prop :=
  sized s /\
  Forall (fun y => (0 <= y)%Q) (Client.energy_log s) /\
  (exists j : nat, (j < Client.clock_reads w)%nat /\
                   Client.last_peak s = clock j) /\
  43690 <= Client.hue s <= 65000 /\
  0 <= Client.prev_bri s <= 255 /\
  Forall lamp_in_range (Client.out w).

(** An event that is no part of the shutdown: on the socket only an
    "energy" request or its reply, and neither a join nor a termination of
    the server process. *)
Definition not_shutdown_event (e : Client.event) : Prop :=
  match e with
  | Client.SendString msg => msg = "energy"%string
  | Client.RecvString _ | Client.Join | Client.Terminate => False
  | _ => True
  end.

(** ** Predicates on runs of the server *)

(** The server loop after at most [n] passes, started as [run] starts it. *)
Definition server_after (request : nat -> option string)
  (image_energy : nat -> Q) (n : nat) : outcome Server.frame * Server.world :=
  Server.run_passes request image_energy n Server.frame0 Server.world0.

(** Among the first [k] polls: the idle ones, and the ones that received
    [msg]. *)
Definition idle_polls (request : nat -> option string) (k : nat) : nat :=
  List.length (filter (fun i => match request i with
                                | None => true
                                | Some _ => false
                                end) (seq 0 k)).

Definition polls_with (msg : string) (request : nat -> option string)
  (k : nat) : nat :=
  List.length (filter (fun i => match request i with
                                | Some m => String.eqb m msg
                                | None => false
                                end) (seq 0 k)).

(** The energy replies in a trace. *)
Definition is_reply (e : Server.event) : bool :=
  match e with
  | Server.SendPyobj _ => true
  | _ => false
  end.

(** The captures in a trace. *)
Definition is_capture (e : Server.event) : bool :=
  match e with
  | Server.Trigger | Server.GetImageEnergy _ => true
  | _ => false
  end.

(** The first [n] captures: a trigger, then the reading. *)
Definition captures_of (image_energy : nat -> Q) (n : nat)
  : list Server.event :=
  flat_map (fun c => [Server.Trigger; Server.GetImageEnergy (image_energy c)])
    (seq 0 n).

(** What the counters and the trace of a running server add up to. *)
Definition server_counts (request : nat -> option string)
  (image_energy : nat -> Q) (s : Server.frame) (w : Server.world) : Prop :=
  server_inv image_energy s w /\
  Server.captures w = idle_polls request (Server.polls w) /\
  List.length (filter is_reply (Server.out w))
    = polls_with "energy" request (Server.polls w) /\
  filter is_capture (Server.out w)
    = captures_of image_energy (Server.captures w) /\
  (Server.capture s = true ->
   polls_with "stop" request (Server.polls w) = 0%nat).

(** * Properties *)

(** ** Lists with Python indices *)

Section PyLists.

Context {A : Type}.
Implicit Types l : list A.

Lemma len_nonneg l : 0 <= len l.
Proof. unfold len. lia. Qed.

Lemma len_snoc l (x : A) : len (l ++ [x]) = len l + 1.
Proof. unfold len. rewrite length_app. simpl. lia. Qed.

Lemma len_pop0_snoc l (x : A) : len (py_pop0 (l ++ [x])) = len l.
Proof.
  unfold py_pop0, len. rewrite length_skipn, length_app. simpl. lia.
Qed.

Lemma pop0_snoc_cons (a : A) l (x : A) : py_pop0 ((a :: l) ++ [x]) = l ++ [x].
Proof. reflexivity. Qed.

(** [l[-k:]] for [0 < k <= len(l)] is the suffix of length [k]. *)
Lemma slice_last_skipn l (k : Z) :
  0 < k <= len l ->
  py_slice_from (- k) l = skipn (List.length l - Z.to_nat k) l.
Proof.
  intros Hk. unfold py_slice_from.
  destruct (Z.ltb_spec (- k) 0) as [_ | H]; [| lia].
  f_equal. unfold len in *. lia.
Qed.

Lemma len_slice_last l (k : Z) :
  0 < k <= len l -> len (py_slice_from (- k) l) = k.
Proof.
  intros Hk. rewrite slice_last_skipn by assumption.
  unfold len in *. rewrite length_skipn. lia.
Qed.

(** A slice [l[-k:]] with [0 < k] never has more than [k] elements. *)
Lemma len_slice_last_le l (k : Z) :
  0 < k -> len (py_slice_from (- k) l) <= k.
Proof.
  intros Hk. unfold py_slice_from.
  destruct (Z.ltb_spec (- k) 0) as [_ | H]; [| lia].
  unfold len. rewrite length_skipn. lia.
Qed.

Lemma slice_from_suffix (start : Z) l :
  exists dropped, l = dropped ++ py_slice_from start l.
Proof.
  unfold py_slice_from.
  match goal with |- context [skipn ?n l] => exists (firstn n l) end.
  symmetry. apply firstn_skipn.
Qed.

Lemma slice_from_incl (start : Z) l (x : A) :
  In x (py_slice_from start l) -> In x l.
Proof.
  destruct (slice_from_suffix start l) as [d Hd]. intros Hin.
  rewrite Hd. apply in_or_app. now right.
Qed.

End PyLists.

(** ** The rolling log *)

Lemma roll_log_below (samples : Z) (energy_log : list Q) (enrg : Q) :
  len energy_log < samples ->
  roll_log samples energy_log enrg = energy_log ++ [enrg].
Proof.
  intros Hlt. unfold roll_log.
  destruct (Z.leb_spec (len energy_log) samples) as [_ | H]; [| lia].
  rewrite len_snoc.
  destruct (Z.eqb_spec (len energy_log + 1) (samples + 1)) as [H | _]; [lia |].
  rewrite len_snoc.
  destruct (Z.gtb_spec (len energy_log + 1) samples) as [H | _]; [lia |].
  reflexivity.
Qed.

Lemma roll_log_full (samples : Z) (energy_log : list Q) (enrg : Q) :
  len energy_log = samples ->
  roll_log samples energy_log enrg = py_pop0 (energy_log ++ [enrg]).
Proof.
  intros Heq. unfold roll_log.
  destruct (Z.leb_spec (len energy_log) samples) as [_ | H]; [| lia].
  rewrite len_snoc.
  destruct (Z.eqb_spec (len energy_log + 1) (samples + 1)) as [_ | H]; [| lia].
  rewrite len_pop0_snoc.
  destruct (Z.gtb_spec (len energy_log) samples) as [H | _]; [lia |].
  reflexivity.
Qed.

Lemma roll_log_over (samples : Z) (energy_log : list Q) (enrg : Q) :
  0 < samples < len energy_log ->
  roll_log samples energy_log enrg =
    skipn (List.length energy_log - Z.to_nat samples) energy_log.
Proof.
  intros [Hpos Hgt]. unfold roll_log.
  destruct (Z.leb_spec (len energy_log) samples) as [H | _]; [lia |].
  destruct (Z.eqb_spec (len energy_log) (samples + 1)) as [Heq | Hne].
  - (* one over: [pop(0)] already leaves the last [samples] entries *)
    assert (Hlen : len (py_pop0 energy_log) = samples)
      by (unfold py_pop0, len in *; rewrite length_skipn; lia).
    rewrite Hlen.
    destruct (Z.gtb_spec samples samples) as [H | _]; [lia |].
    unfold py_pop0. f_equal. unfold len in *. lia.
  - destruct (Z.gtb_spec (len energy_log) samples) as [_ | H]; [| lia].
    apply slice_last_skipn. lia.
Qed.

(** C3.  For a window no longer than the capacity, the window update either
    grows the window by the new sample (length below capacity) or drops
    exactly the oldest sample and puts the new one at the end (length equal
    to capacity); afterwards the length is still at most the capacity. *)
Theorem roll_log_fifo (samples : Z) (energy_log : list Q) (enrg : Q) :
  len energy_log <= samples ->
  (len energy_log < samples ->
     roll_log samples energy_log enrg = energy_log ++ [enrg] /\
     len (roll_log samples energy_log enrg) = len energy_log + 1) /\
  (len energy_log = samples ->
     roll_log samples energy_log enrg = py_pop0 (energy_log ++ [enrg]) /\
     len (roll_log samples energy_log enrg) = len energy_log /\
     forall oldest rest, energy_log = oldest :: rest ->
       roll_log samples energy_log enrg = rest ++ [enrg]) /\
  len (roll_log samples energy_log enrg) <= samples.
Proof.
  intros Hle. split; [| split].
  - intros Hlt. rewrite roll_log_below by assumption.
    split; [reflexivity | apply len_snoc].
  - intros Heq. rewrite roll_log_full by assumption.
    split; [reflexivity | split].
    + apply len_pop0_snoc.
    + intros oldest rest ->. apply pop0_snoc_cons.
  - destruct (Z.eq_dec (len energy_log) samples) as [Heq | Hne].
    + rewrite roll_log_full, len_pop0_snoc by assumption. lia.
    + rewrite roll_log_below, len_snoc by lia. lia.
Qed.

Lemma roll_log_fifo_witness :
  roll_log 3 [1; 2; 3]%Q 4%Q = [2; 3; 4]%Q /\
  roll_log 3 [1; 2]%Q 4%Q = [1; 2; 4]%Q.
Proof.
  split.
  - assert (H : len [1; 2; 3]%Q <= 3) by (unfold len; simpl; lia).
    destruct (roll_log_fifo 3 [1; 2; 3]%Q 4%Q H) as [_ [Hfull _]].
    destruct (Hfull eq_refl) as [_ [_ Hold]].
    exact (Hold 1%Q [2; 3]%Q eq_refl).
  - assert (H : len [1; 2]%Q <= 3) by (unfold len; simpl; lia).
    destruct (roll_log_fifo 3 [1; 2]%Q 4%Q H) as [Hbelow _].
    assert (Hlt : len [1; 2]%Q < 3) by (unfold len; simpl; lia).
    exact (proj1 (Hbelow Hlt)).
Defined.

(** ** Running a computation step by step *)

Lemma bind_done {W A B : Type} (m : M W A) (k : A -> M W B) w b w' :
  bind m k w = (Done b, w') ->
  exists a w1, m w = (Done a, w1) /\ k a w1 = (Done b, w').
Proof.
  unfold bind. destruct (m w) as [[a | e |] w1]; intros H;
    try discriminate.
  now exists a, w1.
Qed.

Lemma bind_step {W A B : Type} (m : M W A) (k : A -> M W B) w a w1 :
  m w = (Done a, w1) -> bind m k w = k a w1.
Proof. intros H. unfold bind. now rewrite H. Qed.

Lemma bind_raised {W A B : Type} (m : M W A) (k : A -> M W B) w e w1 :
  m w = (Raised e, w1) -> bind m k w = (Raised e, w1).
Proof. intros H. unfold bind. now rewrite H. Qed.

Lemma lift_done {W A : Type} (r : result A) (w : W) a w' :
  lift r w = (Done a, w') -> r = Ok a /\ w' = w.
Proof.
  destruct r as [a0 | e]; cbn; intros H; inversion H; subst; auto.
Qed.

(** An iteration that completes went through each block of the loop body in
    turn, on the values the block before it produced. *)
Lemma breath_iter_blocks clock energy_reply key_source s w s' w' :
  Client.breath_iter clock energy_reply key_source s w = (Done s', w') ->
  let sample := energy_reply (Client.replies_read w) in
  let log := roll_log (Client.samples s) (Client.energy_log s) sample in
  exists max_enrg bri w2 w3 w4,
    Client.energy_log s' = log /\
    Client.normalize (Client.smooth log) log = Ok (max_enrg, bri) /\
    Client.capture_peak clock bri (Client.last_peak s)
      (after_exchange energy_reply w) = (Done (Client.last_peak s'), w2) /\
    Client.lamp_hue clock (Client.last_peak s') max_enrg w2
      = (Done (Client.hue s'), w3) /\
    Client.lamp_write (Client.boost bri (Client.hue s')) (Client.hue s')
      (Client.prev_bri s) w3 = (Done (Client.prev_bri s'), w4) /\
    Client.check_keys key_source (Client.active s) (Client.samples s) w4
      = (Done (Client.active s', Client.samples s'), w').
Proof.
  intros H sample log. unfold Client.breath_iter in H.
  apply bind_done in H. destruct H as ([] & w0 & Hsend & H).
  apply bind_done in H. destruct H as (v & w1 & Hrecv & H).
  unfold Client.send_string, Client.emit in Hsend. inversion Hsend; subst w0.
  unfold Client.recv_pyobj in Hrecv. cbn in Hrecv. inversion Hrecv; subst v w1.
  clear Hsend Hrecv.
  apply bind_done in H. destruct H as ([max_enrg bri] & w1 & Hnorm & H).
  apply lift_done in Hnorm. destruct Hnorm as [Hnorm ->].
  apply bind_done in H. destruct H as (lp & w2 & Hpeak & H).
  apply bind_done in H. destruct H as (h & w3 & Hhue & H).
  apply bind_done in H. destruct H as (pb & w4 & Hwrite & H).
  apply bind_done in H. destruct H as ([act smp] & w5 & Hkeys & H).
  unfold ret in H. inversion H; subst s' w'. cbn.
  exists max_enrg, bri, w2, w3, w4.
  repeat split; assumption.
Qed.

(** ** The window inside an iteration *)

(** Counterexample to C4 as stated.  With capacity cut from 60 to 10 by five
    down arrows while the window holds 18 samples, the next iteration does
    not put the sample it receives into the window. *)
Lemma sample_not_appended_after_cut :
  ~ (forall clock energy_reply key_source n s w s' w',
        loop_after clock energy_reply key_source n = (Done s, w) ->
        Client.active s = true ->
        Client.breath_iter clock energy_reply key_source s w = (Done s', w') ->
        exists older,
          Client.energy_log s'
            = older ++ [energy_reply (Client.replies_read w)]).
Proof.
  intros claim.
  pose (clock := Examples.ticking_clock).
  pose (reply := Examples.counting_replies).
  pose (keys := Examples.five_downs).
  pose (idle := Client.mkFrame [] 0 0 0%Q true 0).
  pose (r := loop_after clock reply keys 13).
  pose (s := match fst r with Done s => s | _ => idle end).
  pose (w := snd r).
  pose (r' := Client.breath_iter clock reply keys s w).
  pose (s' := match fst r' with Done s' => s' | _ => idle end).
  pose (w' := snd r').
  assert (Hrun : loop_after clock reply keys 13 = (Done s, w))
    by (vm_compute; reflexivity).
  assert (Hact : Client.active s = true) by (vm_compute; reflexivity).
  assert (Hiter : Client.breath_iter clock reply keys s w = (Done s', w'))
    by (vm_compute; reflexivity).
  destruct (claim clock reply keys 13%nat s w s' w' Hrun Hact Hiter)
    as [older Hold].
  apply (f_equal (@rev Q)) in Hold. rewrite rev_app_distr in Hold.
  vm_compute in Hold. discriminate Hold.
Qed.

(** C4, amended.  In every iteration that completes, with a positive
    capacity: a window shorter than the capacity gets the received sample at
    its end; a window exactly at capacity gets it and loses its oldest
    sample; a window longer than the capacity (the capacity was cut) does
    not get the received sample and is cut to the last [samples] samples it
    already held.  Afterwards the window is never longer than the
    capacity. *)
Theorem breath_iter_window clock energy_reply key_source s w s' w' :
  Client.breath_iter clock energy_reply key_source s w = (Done s', w') ->
  0 < Client.samples s ->
  let sample := energy_reply (Client.replies_read w) in
  let old := Client.energy_log s in
  let new := Client.energy_log s' in
  (len old < Client.samples s -> new = old ++ [sample]) /\
  (len old = Client.samples s -> new = py_pop0 (old ++ [sample])) /\
  (Client.samples s < len old ->
     new = skipn (List.length old - Z.to_nat (Client.samples s)) old /\
     len new = Client.samples s) /\
  len new <= Client.samples s.
Proof.
  intros Hiter Hpos sample old new.
  apply breath_iter_blocks in Hiter.
  destruct Hiter as (m & b & w2 & w3 & w4 & Hlog & _).
  fold sample old in Hlog. fold new in Hlog.
  assert (Hover : Client.samples s < len old ->
                  new = skipn (List.length old - Z.to_nat (Client.samples s)) old
                  /\ len new = Client.samples s).
  { intros Hgt. rewrite Hlog, roll_log_over by lia. split; [reflexivity |].
    unfold len in *. rewrite length_skipn. lia. }
  repeat split.
  - intros Hlt. rewrite Hlog. now apply roll_log_below.
  - intros Heq. rewrite Hlog. now apply roll_log_full.
  - now apply Hover.
  - now apply Hover.
  - destruct (Z.lt_trichotomy (len old) (Client.samples s)) as [Hlt | [Heq | Hgt]].
    + rewrite Hlog, roll_log_below, len_snoc by assumption. lia.
    + rewrite Hlog, roll_log_full, len_pop0_snoc by assumption. lia.
    + destruct (Hover Hgt) as [_ ->]. lia.
Qed.

Lemma breath_iter_window_witness :
  exists s' w',
    Client.breath_iter Examples.ticking_clock Examples.counting_replies
      Examples.no_keys Examples.cut_frame Client.world0 = (Done s', w') /\
    Client.energy_log s' = [3; 4; 5; 6; 7; 8; 9; 10; 11; 12]%Q.
Proof.
  pose (r := Client.breath_iter Examples.ticking_clock
               Examples.counting_replies Examples.no_keys
               Examples.cut_frame Client.world0).
  pose (s' := match fst r with Done s' => s' | _ => Examples.cut_frame end).
  exists s', (snd r).
  assert (Hiter : Client.breath_iter Examples.ticking_clock
                    Examples.counting_replies Examples.no_keys
                    Examples.cut_frame Client.world0 = (Done s', snd r))
    by (vm_compute; reflexivity).
  split; [exact Hiter |].
  assert (Hpos : 0 < Client.samples Examples.cut_frame) by reflexivity.
  destruct (breath_iter_window _ _ _ _ _ _ _ Hiter Hpos)
    as (_ & _ & Hover & _).
  assert (Hgt : Client.samples Examples.cut_frame
                < len (Client.energy_log Examples.cut_frame)) by reflexivity.
  exact (proj1 (Hover Hgt)).
Defined.

(** ** Arithmetic of [int(...)], [sum] and [max] *)

Lemma py_int_nonneg (x : Q) : (0 <= x)%Q -> py_int x = Qfloor x.
Proof.
  destruct x as [n d]. unfold Qle, py_int, Qfloor. cbn. intros Hn.
  apply Z.quot_div_nonneg; lia.
Qed.




Lemma py_int_inject_Z (z : Z) : py_int (inject_Z z) = z.
Proof. unfold py_int. cbn. apply Z.quot_1_r. Qed.

Lemma py_int_bounds (x : Q) (lo hi : Z) :
  (inject_Z lo <= x)%Q -> (x <= inject_Z hi)%Q -> 0 <= lo ->
  lo <= py_int x <= hi.
Proof.
  intros Hlo Hhi Hpos.
  rewrite py_int_nonneg.
  - split.
    + rewrite <- (Qfloor_Z lo). now apply Qfloor_resp_le.
    + rewrite <- (Qfloor_Z hi). now apply Qfloor_resp_le.
  - apply Qle_trans with (inject_Z lo); [| assumption].
    change 0%Q with (inject_Z 0). rewrite <- Zle_Qle. exact Hpos.
Qed.

Lemma fold_max_ge (r : list Q) (acc : Q) :
  let m := fold_left (fun m y => if Qlt_le_dec m y then y else m) r acc in
  (acc <= m)%Q /\ Forall (fun y => (y <= m)%Q) r.
Proof.
  revert acc. induction r as [| y r IH]; intros acc; cbn.
  - split; [apply Qle_refl | constructor].
  - destruct (Qlt_le_dec acc y) as [Hlt | Hle].
    + destruct (IH y) as [Hy Hr]. split; [| constructor; assumption].
      apply Qle_trans with y; [now apply Qlt_le_weak | assumption].
    + destruct (IH acc) as [Hacc Hr]. split; [assumption |].
      constructor; [| assumption]. now apply Qle_trans with acc.
Qed.

(** [max(l)] is an element of [l] that bounds every element. *)
Lemma py_max_upper (l : list Q) (m : Q) :
  py_max l = Ok m -> Forall (fun y => (y <= m)%Q) l.
Proof.
  destruct l as [| x r]; cbn; intros H; inversion H; subst.
  destruct (fold_max_ge r x) as [Hx Hr]. now constructor.
Qed.

Lemma fold_max_in (r : list Q) (acc : Q) :
  In (fold_left (fun m y => if Qlt_le_dec m y then y else m) r acc)
     (acc :: r).
Proof.
  revert acc. induction r as [| y r IH]; intros acc; cbn.
  - now left.
  - destruct (Qlt_le_dec acc y).
    + right. apply (IH y).
    + destruct (IH acc) as [H | H]; [now left | right; now right].
Qed.

Lemma py_max_in (l : list Q) (m : Q) : py_max l = Ok m -> In m l.
Proof.
  destruct l as [| x r]; cbn; intros H; inversion H; subst.
  apply fold_max_in.
Qed.

Lemma fold_plus_acc (l : list Q) (acc : Q) :
  (fold_left Qplus l acc == acc + py_sum l)%Q.
Proof.
  unfold py_sum. revert acc. induction l as [| x l IH]; intros acc; cbn.
  - ring.
  - rewrite (IH (acc + x)%Q), (IH (0 + x)%Q). ring.
Qed.

Lemma py_sum_cons (x : Q) (l : list Q) : (py_sum (x :: l) == x + py_sum l)%Q.
Proof. unfold py_sum at 1. cbn. rewrite fold_plus_acc. ring. Qed.

Lemma py_sum_bounds (l : list Q) (m : Q) :
  Forall (fun y => (0 <= y)%Q) l -> Forall (fun y => (y <= m)%Q) l ->
  (0 <= py_sum l)%Q /\ (py_sum l <= inject_Z (len l) * m)%Q.
Proof.
  induction l as [| x l IH]; intros Hpos Hle.
  - split; [apply Qle_refl |]. change (0 <= 0 * m)%Q. lra.
  - inversion Hpos; subst. inversion Hle; subst.
    destruct IH as [IH0 IHm]; [assumption .. |].
    rewrite py_sum_cons.
    assert (Hlen : (inject_Z (len (x :: l)) == 1 + inject_Z (len l))%Q).
    { unfold len. cbn [List.length]. rewrite Nat2Z.inj_succ.
      unfold Z.succ. rewrite inject_Z_plus. ring. }
    rewrite Hlen. split; [lra |].
    setoid_replace ((1 + inject_Z (len l)) * m)%Q
      with (m + inject_Z (len l) * m)%Q by ring.
    lra.
Qed.

(** The mean of the last three samples of a window of non-negative samples
    lies between zero and the maximum of the window. *)
Lemma smooth_bounds (energy_log : list Q) (max_enrg : Q) :
  py_max energy_log = Ok max_enrg ->
  Forall (fun y => (0 <= y)%Q) energy_log ->
  (0 <= Client.smooth energy_log <= max_enrg)%Q.
Proof.
  intros Hmax Hpos. unfold Client.smooth.
  set (tail := py_slice_from (-3) energy_log).
  assert (Htail : forall y, In y tail -> In y energy_log)
    by (intros y; apply slice_from_incl).
  assert (Hm : (0 <= max_enrg)%Q).
  { rewrite Forall_forall in Hpos. apply Hpos. now apply py_max_in. }
  destruct (py_sum_bounds tail max_enrg) as [H0 Hs].
  - rewrite Forall_forall in *. auto.
  - apply py_max_upper in Hmax. rewrite Forall_forall in *. auto.
  - assert (Hlen : len tail <= 3) by (apply (len_slice_last_le energy_log 3); lia).
    assert (Hlen' : (inject_Z (len tail) <= 3)%Q)
      by (change 3%Q with (inject_Z 3); now rewrite <- Zle_Qle).
    assert (Hs3 : (py_sum tail <= 3 * max_enrg)%Q).
    { apply Qle_trans with (inject_Z (len tail) * max_enrg)%Q; [assumption |].
      apply Qmult_le_compat_r; assumption. }
    split.
    + apply Qle_shift_div_l; lra.
    + apply Qle_shift_div_r; lra.
Qed.

(** ** Brightness *)

(** The maximum the normalization block yields is the window's. *)
Lemma normalize_max (enrg max_enrg : Q) (bri : Z) (energy_log : list Q) :
  Client.normalize enrg energy_log = Ok (max_enrg, bri) ->
  py_max energy_log = Ok max_enrg.
Proof.
  unfold Client.normalize. intros Hnorm.
  destruct (py_max energy_log) as [m | e]; [| discriminate].
  destruct (py_div _ _); [| discriminate].
  inversion Hnorm; subst. reflexivity.
Qed.

Lemma normalize_positive_max (enrg max_enrg : Q) (energy_log : list Q) :
  py_max energy_log = Ok max_enrg -> (0 < max_enrg)%Q ->
  Client.normalize enrg energy_log
    = Ok (max_enrg, py_int (195 * ((enrg - 0) / (max_enrg - 0)) + 60)).
Proof.
  intros Hmax Hpos. unfold Client.normalize, py_div. rewrite Hmax.
  destruct (Qeq_bool (max_enrg - 0) 0) eqn:Hz; [| reflexivity].
  apply Qeq_bool_iff in Hz. lra.
Qed.

Lemma ratio_unit_interval (enrg max_enrg : Q) :
  (0 < max_enrg)%Q -> (0 <= enrg <= max_enrg)%Q ->
  (0 <= enrg / max_enrg <= 1)%Q.
Proof.
  intros Hpos [H0 H1]. split.
  - apply Qle_shift_div_l; lra.
  - apply Qle_shift_div_r; lra.
Qed.


(** The same readings on binary64 numbers: the quotient is exactly 0.5, the
    sum exactly 157.5, and [int] yields 157. *)
Lemma brightness_binary64_example :
  Binary64.brightness Binary64.smoothed_example Binary64.max_example = Ok 157.
Proof. vm_compute. reflexivity. Qed.



Lemma normalize_zero_max (enrg max_enrg : Q) (energy_log : list Q) :
  py_max energy_log = Ok max_enrg -> (max_enrg == 0)%Q ->
  Client.normalize enrg energy_log = Raise ZeroDivisionError.
Proof.
  intros Hmax Hzero. unfold Client.normalize, py_div. rewrite Hmax.
  destruct (Qeq_bool (max_enrg - 0) 0) eqn:Hz; [reflexivity |].
  apply Qeq_bool_neq in Hz. exfalso. apply Hz. rewrite Hzero. reflexivity.
Qed.

(** C2.  Nothing stands between a zero window maximum and the division:
    whenever the maximum is zero the normalization raises
    [ZeroDivisionError]; and such a state is reached, since with a sensor
    that reads zero the window after the set-up holds five zeros and the
    first iteration of the loop ends in that exception. *)
Theorem zero_window_divides_by_zero :
  (forall enrg energy_log max_enrg,
      py_max energy_log = Ok max_enrg -> (max_enrg == 0)%Q ->
      Client.normalize enrg energy_log = Raise ZeroDivisionError) /\
  (forall clock key_source,
      exists s w w',
        loop_after clock Examples.silent_replies key_source 0 = (Done s, w) /\
        Client.active s = true /\
        Client.energy_log s = [0; 0; 0; 0; 0]%Q /\
        py_max (roll_log (Client.samples s) (Client.energy_log s) 0%Q)
          = Ok 0%Q /\
        Client.breath_iter clock Examples.silent_replies key_source s w
          = (Raised ZeroDivisionError, w')).
Proof.
  split.
  - intros enrg energy_log max_enrg. apply normalize_zero_max.
  - intros clock key_source.
    pose (s := Client.mkFrame [0; 0; 0; 0; 0]%Q 0 43690 (clock 0%nat) true 60).
    pose (w := snd (loop_after clock Examples.silent_replies key_source 0)).
    exists s, w, (after_exchange Examples.silent_replies w).
    split; [vm_compute; reflexivity |].
    split; [reflexivity |].
    split; [reflexivity |].
    split; [vm_compute; reflexivity |].
    vm_compute; reflexivity.
Qed.

Lemma zero_window_divides_by_zero_witness :
  Client.normalize 0%Q [0; 0; 0]%Q = Raise ZeroDivisionError.
Proof.
  apply (proj1 zero_window_divides_by_zero 0%Q [0; 0; 0]%Q 0%Q).
  - reflexivity.
  - reflexivity.
Defined.

(** ** Hue *)

(** The hue block, case by case. *)
Lemma lamp_hue_cases clock (last_peak max_enrg : Q) (w : Client.world) :
  Client.lamp_hue clock last_peak max_enrg w =
    let k := Client.clock_reads w in
    let once := Client.mkWorld (S k) (Client.replies_read w)
                  (Client.keys_read w) (Client.out w) in
    let twice := Client.mkWorld (S (S k)) (Client.replies_read w)
                   (Client.keys_read w) (Client.out w) in
    if Qlt_le_dec 13 (clock k - last_peak) then (Done 65000, once)
    else if Qlt_le_dec max_enrg (2 # 10000) then (Done 65000, once)
    else (Done (clamp_hue (43690 + 1600 * py_int (clock (S k) - last_peak))),
          twice).
Proof.
  unfold Client.lamp_hue, bind, Client.time_time, ret, clamp_hue.
  cbv zeta. cbv beta iota.
  destruct (Qlt_le_dec 13 (clock (Client.clock_reads w) - last_peak));
    [reflexivity |].
  destruct (Qlt_le_dec max_enrg (2 # 10000)); reflexivity.
Qed.



(** ** Lamp writes *)

Lemma lamp_write_cases (bri hue prev_bri : Z) (w : Client.world) :
  Client.lamp_write bri hue prev_bri w =
    if Z.abs (bri - prev_bri) >? 2 then
      (Done bri,
       with_events w [Client.SetLight "bri" bri; Client.Sleep (1 # 10);
                      Client.SetLight "hue" hue; Client.Sleep (1 # 10)])
    else (Done prev_bri, w).
Proof.
  unfold Client.lamp_write, with_events.
  destruct (Z.abs (bri - prev_bri) >? 2); [| reflexivity].
  unfold bind, Client.set_light, Client.time_sleep, Client.emit, ret. cbn.
  rewrite <- !app_assoc. reflexivity.
Qed.



(** ** Keys and the window capacity *)

Ltac run_keys :=
  unfold Client.check_keys, bind, Client.getch, Client.emit, ret, SAMPLES;
  cbv beta iota zeta.

Ltac split_ifs :=
  repeat match goal with
    | |- context [if ?a >? ?b then _ else _] => destruct (Z.gtb_spec a b)
    | |- context [if ?a <? ?b then _ else _] => destruct (Z.ltb_spec a b)
    | |- context [if ?a =? ?b then _ else _] => destruct (Z.eqb_spec a b)
    | |- context [if negb ?c then _ else _] => destruct c eqn:?; cbn [negb]
    end.

Lemma check_keys_up key_source active samples w :
  key_source (Client.keys_read w) = 224 ->
  key_source (S (Client.keys_read w)) = 72 ->
  fst (Client.check_keys key_source active samples w)
    = Done (active, if samples + 10 >? 250 then 250 else samples + 10).
Proof.
  intros Hk1 Hk2. run_keys. rewrite Hk1. cbn [Z.eqb negb Pos.eqb].
  cbv beta iota zeta. cbn [Client.keys_read]. rewrite Hk2.
  cbn [Z.eqb Pos.eqb]. cbv beta iota zeta.
  destruct (samples + 10 >? 250); reflexivity.
Qed.

Lemma check_keys_down key_source active samples w :
  key_source (Client.keys_read w) = 224 ->
  key_source (S (Client.keys_read w)) = 80 ->
  fst (Client.check_keys key_source active samples w)
    = Done (active, if samples - 10 <? 10 then 10 else samples - 10).
Proof.
  intros Hk1 Hk2. run_keys. rewrite Hk1. cbn [Z.eqb negb Pos.eqb].
  cbv beta iota zeta. cbn [Client.keys_read]. rewrite Hk2.
  cbn [Z.eqb Pos.eqb]. cbv beta iota zeta.
  destruct (samples - 10 <? 10); reflexivity.
Qed.

Lemma check_keys_space key_source active samples w :
  key_source (Client.keys_read w) = 32 ->
  fst (Client.check_keys key_source active samples w) = Done (active, 60).
Proof.
  intros Hk1. run_keys. rewrite Hk1. cbn [Z.eqb negb Pos.eqb].
  cbv beta iota zeta. reflexivity.
Qed.

(** The key block always completes, and keeps the capacity in 10..250. *)
Lemma check_keys_range key_source active samples w :
  10 <= samples <= 250 ->
  exists active' samples' w',
    Client.check_keys key_source active samples w
      = (Done (active', samples'), w') /\
    10 <= samples' <= 250.
Proof.
  intros Hrange. run_keys.
  set (k1 := key_source (Client.keys_read w)).
  destruct (Z.eqb_spec k1 (-1)); cbn [negb].
  - eexists. eexists. eexists. split; [reflexivity | lia].
  - destruct (Z.eqb_spec k1 32); cbv beta iota zeta;
      destruct (Z.eqb_spec k1 224); cbv beta iota zeta;
      cbn [Client.keys_read];
      split_ifs;
      eexists; eexists; eexists; (split; [reflexivity | lia]).
Qed.

(** The capacity the loop holds after its set-up and [n] passes. *)
Lemma capacity_after_keys (n : nat) (capacity : Z) :
  (match fst (loop_after Examples.ticking_clock Examples.counting_replies
                Examples.three_ups_eight_downs n) with
   | Done s => Client.samples s =? capacity
   | _ => false
   end) = true ->
  exists s w,
    loop_after Examples.ticking_clock Examples.counting_replies
      Examples.three_ups_eight_downs n = (Done s, w) /\
    Client.samples s = capacity.
Proof.
  destruct (loop_after _ _ _ n) as [[s | e |] w]; cbn [fst];
    intros H; try discriminate.
  exists s, w. split; [reflexivity |]. now apply Z.eqb_eq.
Qed.

(** C7.  With the capacity in 10..250: an up arrow (224 then 72) adds 10
    and a down arrow (224 then 80) subtracts 10, the result kept within
    10..250; space (32) resets the capacity to 60; whatever the keys, the
    capacity stays in 10..250.  From the initial 60, three up arrows in
    three passes of the loop give 90, and eight down arrows in the next
    eight passes give 10. *)
Theorem check_keys_capacity :
  (forall key_source active samples w,
      10 <= samples <= 250 ->
      let k := Client.keys_read w in
      (key_source k = 224 -> key_source (S k) = 72 ->
       fst (Client.check_keys key_source active samples w)
         = Done (active, Z.min 250 (samples + 10))) /\
      (key_source k = 224 -> key_source (S k) = 80 ->
       fst (Client.check_keys key_source active samples w)
         = Done (active, Z.max 10 (samples - 10))) /\
      (key_source k = 32 ->
       fst (Client.check_keys key_source active samples w)
         = Done (active, 60)) /\
      (exists active' samples' w',
          Client.check_keys key_source active samples w
            = (Done (active', samples'), w') /\
          10 <= samples' <= 250)) /\
  (exists s w,
      loop_after Examples.ticking_clock Examples.counting_replies
        Examples.three_ups_eight_downs 0 = (Done s, w) /\
      Client.samples s = 60) /\
  (exists s w,
      loop_after Examples.ticking_clock Examples.counting_replies
        Examples.three_ups_eight_downs 3 = (Done s, w) /\
      Client.samples s = 90) /\
  (exists s w,
      loop_after Examples.ticking_clock Examples.counting_replies
        Examples.three_ups_eight_downs 11 = (Done s, w) /\
      Client.samples s = 10).
Proof.
  split; [| repeat split; apply capacity_after_keys; vm_compute; reflexivity].
  intros key_source active samples w Hrange k.
  split; [| split; [| split]].
  - intros Hk1 Hk2. rewrite check_keys_up by assumption.
    destruct (Z.gtb_spec (samples + 10) 250); do 2 f_equal; lia.
  - intros Hk1 Hk2. rewrite check_keys_down by assumption.
    destruct (Z.ltb_spec (samples - 10) 10); do 2 f_equal; lia.
  - intros Hk1. now apply check_keys_space.
  - now apply check_keys_range.
Qed.

Lemma check_keys_capacity_witness :
  fst (Client.check_keys (Examples.keys_of [224; 72]) true 245 Client.world0)
    = Done (true, 250) /\
  fst (Client.check_keys (Examples.keys_of [224; 80]) true 15 Client.world0)
    = Done (true, 10).
Proof.
  split.
  - assert (H : 10 <= 245 <= 250) by lia.
    destruct (proj1 check_keys_capacity (Examples.keys_of [224; 72]) true 245
                Client.world0 H) as (Hup & _).
    exact (Hup eq_refl eq_refl).
  - assert (H : 10 <= 15 <= 250) by lia.
    destruct (proj1 check_keys_capacity (Examples.keys_of [224; 80]) true 15
                Client.world0 H) as (_ & Hdown & _).
    exact (Hdown eq_refl eq_refl).
Defined.

(** ** The server loop *)

Section ServerLoop.

Variable request : nat -> option string.
Variable image_energy : nat -> Q.

#[local] Abbreviation run_iter := (Server.run_iter request image_energy).
#[local] Abbreviation run_passes := (Server.run_passes request image_energy).

(** One pass of the server loop, case by case on what the poll returns. *)
Lemma run_iter_cases (s : Server.frame) (w : Server.world) :
  Server.message s = ""%string ->
  run_iter s w =
    let polled := S (Server.polls w) in
    match request (Server.polls w) with
    | None =>
        let v := image_energy (Server.captures w) in
        (Done (Server.mkFrame (Server.capture s) "" (Some v)),
         Server.mkWorld polled (S (Server.captures w))
           (Server.out w ++ [Server.Trigger; Server.GetImageEnergy v]))
    | Some msg =>
        if String.eqb msg "stop" then
          (Done (Server.mkFrame false "" (Server.energy s)),
           Server.mkWorld polled (Server.captures w) (Server.out w))
        else if String.eqb msg "energy" then
          match Server.energy s with
          | Some v =>
              (Done (Server.mkFrame (Server.capture s) "" (Some v)),
               Server.mkWorld polled (Server.captures w)
                 (Server.out w ++ [Server.SendPyobj v]))
          | None =>
              (Raised NameError,
               Server.mkWorld polled (Server.captures w) (Server.out w))
          end
        else
          (Done (Server.mkFrame (Server.capture s) "" (Server.energy s)),
           Server.mkWorld polled (Server.captures w) (Server.out w))
    end.
Proof.
  intros Hmsg.
  unfold Server.run_iter, bind, Server.recv_string_noblock,
    Server.walabot_trigger, Server.walabot_get_image_energy, Server.read_energy,
    Server.emit, ret, raise.
  cbv beta iota zeta.
  destruct (request (Server.polls w)) as [msg |].
  - cbn [Server.message Server.energy Server.capture
         Server.polls Server.captures Server.out].
    destruct (String.eqb msg "stop"); [reflexivity |].
    destruct (String.eqb msg "energy"); [| reflexivity].
    destruct (Server.energy s); reflexivity.
  - cbn [Server.message Server.energy Server.capture
         Server.polls Server.captures Server.out].
    rewrite Hmsg. cbn [String.eqb]. rewrite <- app_assoc. reflexivity.
Qed.

Lemma run_iter_inv (s s' : Server.frame) (w w' : Server.world) :
  server_inv image_energy s w ->
  run_iter s w = (Done s', w') ->
  server_inv image_energy s' w'.
Proof.
  intros [Hmsg Hen] Hrun. rewrite (run_iter_cases s w Hmsg) in Hrun.
  cbv zeta in Hrun.
  destruct (request (Server.polls w)) as [msg |].
  - destruct (String.eqb msg "stop").
    + inversion Hrun; subst. split; [reflexivity | exact Hen].
    + destruct (String.eqb msg "energy").
      * destruct (Server.energy s) as [v |] eqn:Hv; [| discriminate].
        inversion Hrun; subst. split; [reflexivity | exact Hen].
      * inversion Hrun; subst. split; [reflexivity | exact Hen].
  - inversion Hrun; subst. split; reflexivity.
Qed.

Lemma run_passes_inv (n : nat) (s s' : Server.frame) (w w' : Server.world) :
  server_inv image_energy s w ->
  run_passes n s w = (Done s', w') ->
  server_inv image_energy s' w'.
Proof.
  revert s w. induction n as [| n IH]; intros s w Hinv Hrun.
  - inversion Hrun; subst. exact Hinv.
  - cbn [Server.run_passes] in Hrun.
    destruct (Server.capture s).
    + apply bind_done in Hrun. destruct Hrun as (s1 & w1 & Hiter & Hrest).
      apply (IH s1 w1); [| exact Hrest].
      now apply (run_iter_inv s s1 w w1).
    + inversion Hrun; subst. exact Hinv.
Qed.

Lemma server_inv_start : server_inv image_energy Server.frame0 Server.world0.
Proof. split; reflexivity. Qed.

End ServerLoop.

(** C8.  At the head of the server loop (no message held over): when no
    request is pending the pass triggers one capture and reads the energy
    anew; when the request is "energy" and an energy has been read, the
    pass sends that energy and triggers nothing; any other request except
    "stop" changes nothing and the loop goes on; no request of any kind
    makes the pass capture.  In a running server the energy sent is the
    reading of the latest capture. *)
Theorem run_iter_spec request image_energy (s : Server.frame)
  (w : Server.world) :
  Server.message s = ""%string ->
  let k := Server.polls w in
  let captured := Server.captures w in
  (request k = None ->
   Server.run_iter request image_energy s w
     = (Done (Server.mkFrame (Server.capture s) ""
                (Some (image_energy captured))),
        Server.mkWorld (S k) (S captured)
          (Server.out w ++ [Server.Trigger;
                            Server.GetImageEnergy (image_energy captured)]))) /\
  (forall v, request k = Some "energy"%string -> Server.energy s = Some v ->
   Server.run_iter request image_energy s w
     = (Done (Server.mkFrame (Server.capture s) "" (Some v)),
        Server.mkWorld (S k) captured (Server.out w ++ [Server.SendPyobj v]))) /\
  (forall msg, request k = Some msg ->
   msg <> "stop"%string -> msg <> "energy"%string ->
   Server.run_iter request image_energy s w
     = (Done (Server.mkFrame (Server.capture s) "" (Server.energy s)),
        Server.mkWorld (S k) captured (Server.out w))) /\
  (forall msg, request k = Some msg ->
   Server.captures (snd (Server.run_iter request image_energy s w))
     = captured) /\
  (forall n c, Server.run_passes request image_energy n Server.frame0
                 Server.world0 = (Done s, w) ->
   captured = S c -> Server.energy s = Some (image_energy c)).
Proof.
  intros Hmsg k captured.
  rewrite (run_iter_cases request image_energy s w Hmsg). cbv zeta.
  fold k captured.
  split; [| split; [| split; [| split]]].
  - intros ->. reflexivity.
  - intros v -> ->. reflexivity.
  - intros msg -> Hstop Henergy.
    apply String.eqb_neq in Hstop. apply String.eqb_neq in Henergy.
    rewrite Hstop, Henergy. reflexivity.
  - intros msg ->.
    destruct (String.eqb msg "stop"); [reflexivity |].
    destruct (String.eqb msg "energy"); [| reflexivity].
    destruct (Server.energy s); reflexivity.
  - intros n c Hrun Hc.
    destruct (run_passes_inv request image_energy n _ _ _ _
                (server_inv_start image_energy) Hrun) as [_ Hen].
    fold captured in Hen. rewrite Hc in Hen. exact Hen.
Qed.

Lemma run_iter_spec_witness :
  Server.run_iter (fun _ => Some "energy"%string) (fun _ => 0%Q)
    (Server.mkFrame true "" (Some (4 # 10000)%Q)) Server.world0
  = (Done (Server.mkFrame true "" (Some (4 # 10000)%Q)),
     Server.mkWorld 1 0 [Server.SendPyobj (4 # 10000)%Q]).
Proof.
  destruct (run_iter_spec (fun _ => Some "energy"%string) (fun _ => 0%Q)
              (Server.mkFrame true "" (Some (4 # 10000)%Q)) Server.world0
              eq_refl) as (_ & Hreply & _).
  exact (Hreply (4 # 10000)%Q eq_refl eq_refl).
Defined.

(** C10.  If the very first poll of the server already finds "energy", the
    server ends in [NameError] without having replied.  More generally, at
    any point of a run where "energy" is polled: if no capture has been made
    the pass ends in [NameError]; if one has, the pass sends the reading of
    the latest capture. *)
Theorem energy_before_first_capture :
  (forall request image_energy fuel,
      request 0%nat = Some "energy"%string ->
      Server.run request image_energy (S fuel) Server.world0
        = (Raised NameError, Server.mkWorld 1 0 [])) /\
  (forall request image_energy n s w,
      Server.run_passes request image_energy n Server.frame0 Server.world0
        = (Done s, w) ->
      request (Server.polls w) = Some "energy"%string ->
      (Server.captures w = 0%nat ->
       Server.run_iter request image_energy s w
         = (Raised NameError,
            Server.mkWorld (S (Server.polls w)) 0 (Server.out w))) /\
      (forall c, Server.captures w = S c ->
       Server.run_iter request image_energy s w
         = (Done (Server.mkFrame (Server.capture s) ""
                    (Some (image_energy c))),
            Server.mkWorld (S (Server.polls w)) (S c)
              (Server.out w ++ [Server.SendPyobj (image_energy c)])))).
Proof.
  split.
  - intros request image_energy fuel Hreq.
    unfold Server.run. cbn [Server.run_while Server.frame0 Server.capture].
    apply bind_raised. apply bind_raised.
    rewrite run_iter_cases by reflexivity.
    cbn [Server.world0 Server.polls]. rewrite Hreq. reflexivity.
  - intros request image_energy n s w Hrun Hreq.
    destruct (run_passes_inv request image_energy n _ _ _ _
                (server_inv_start image_energy) Hrun) as [Hmsg Hen].
    rewrite (run_iter_cases request image_energy s w Hmsg). cbv zeta.
    rewrite Hreq. cbn [String.eqb Ascii.eqb Bool.eqb].
    split.
    + intros Hc. rewrite Hc in Hen. rewrite Hen, Hc. reflexivity.
    + intros c Hc. rewrite Hc in Hen. rewrite Hen, Hc. reflexivity.
Qed.

Lemma energy_before_first_capture_witness :
  Server.run (fun _ => Some "energy"%string) (fun _ => 0%Q) 1 Server.world0
    = (Raised NameError, Server.mkWorld 1 0 []).
Proof.
  apply (proj1 energy_before_first_capture). reflexivity.
Defined.

(** ** Shutdown *)

Lemma shutdown_stopped (w : Client.world) :
  Client.shutdown "stopped" w
    = (Raised (SystemExit 0),
       with_events w [Client.SendString "stop"; Client.RecvString "stopped";
                      Client.Join; Client.PrintLine "Done!"]).
Proof.
  unfold Client.shutdown, Client.recv_string, Client.send_string, Client.sys_exit,
    bind, Client.emit, ret, raise, with_events.
  cbn. rewrite <- !app_assoc. reflexivity.
Qed.

Lemma shutdown_other (stop_reply : string) (w : Client.world) :
  stop_reply <> "stopped"%string ->
  Client.shutdown stop_reply w
    = (Raised (SystemExit 1),
       with_events w [Client.SendString "stop"; Client.RecvString stop_reply;
                      Client.Terminate]).
Proof.
  intros Hneq. apply String.eqb_neq in Hneq.
  unfold Client.shutdown, Client.recv_string, Client.send_string, Client.sys_exit,
    bind, Client.emit, ret, raise, with_events.
  cbv beta iota zeta. rewrite Hneq.
  cbn. rewrite <- !app_assoc. reflexivity.
Qed.

(** When the server is ready and the control loop returns, the script goes
    on with the shutdown handshake. *)
Lemma main_reaches_shutdown clock energy_reply key_source stop_reply fuel w :
  Client.breath_loop clock energy_reply key_source fuel monitor_start
    = (Done tt, w) ->
  Client.main clock energy_reply key_source true stop_reply fuel Client.world0
    = Client.shutdown stop_reply w.
Proof.
  intros Hloop. unfold Client.main.
  unfold bind at 1. unfold bind at 1. unfold bind at 1. unfold bind at 1.
  unfold bind at 1.
  cbn [Client.emit Client.world0 Client.clock_reads Client.replies_read
       Client.keys_read Client.out app].
  unfold monitor_start, with_events in Hloop.
  cbn [Client.world0 Client.clock_reads Client.replies_read
       Client.keys_read Client.out app] in Hloop.
  rewrite Hloop. reflexivity.
Qed.

(** C9.  The shutdown sends "stop" and takes the reply.  If the reply is
    "stopped" the client joins the server process and exits with code 0; if
    it is anything else the client terminates the server process and exits
    with code 1.  The script reaches this handshake whenever the server was
    ready and the control loop returned. *)
Theorem shutdown_spec :
  (forall w,
      Client.shutdown "stopped" w
        = (Raised (SystemExit 0),
           with_events w [Client.SendString "stop";
                          Client.RecvString "stopped";
                          Client.Join; Client.PrintLine "Done!"])) /\
  (forall stop_reply w,
      stop_reply <> "stopped"%string ->
      Client.shutdown stop_reply w
        = (Raised (SystemExit 1),
           with_events w [Client.SendString "stop";
                          Client.RecvString stop_reply;
                          Client.Terminate])) /\
  (forall clock energy_reply key_source stop_reply fuel w,
      Client.breath_loop clock energy_reply key_source fuel monitor_start
        = (Done tt, w) ->
      Client.main clock energy_reply key_source true stop_reply fuel
        Client.world0 = Client.shutdown stop_reply w).
Proof.
  split; [| split].
  - exact shutdown_stopped.
  - exact shutdown_other.
  - exact main_reaches_shutdown.
Qed.

Lemma shutdown_spec_witness :
  fst (Client.shutdown "" Client.world0) = Raised (SystemExit 1) /\
  fst (Client.main Examples.ticking_clock Examples.counting_replies
         (Examples.keys_of [113]) true "stopped" 1 Client.world0)
    = Raised (SystemExit 0).
Proof.
  split.
  - rewrite (proj1 (proj2 shutdown_spec) ""%string Client.world0).
    + reflexivity.
    + discriminate.
  - pose (w := snd (Client.breath_loop Examples.ticking_clock
                      Examples.counting_replies (Examples.keys_of [113]) 1
                      monitor_start)).
    rewrite (proj2 (proj2 shutdown_spec) Examples.ticking_clock
               Examples.counting_replies (Examples.keys_of [113])
               "stopped"%string 1%nat w).
    + rewrite (proj1 shutdown_spec w). reflexivity.
    + vm_compute. reflexivity.
Defined.

(** * Further properties of the control loop *)

(** ** The key block, case by case *)

Lemma check_keys_cases key_source (active : bool) (samples : Z)
  (w : Client.world) :
  Client.check_keys key_source active samples w =
    let k := Client.keys_read w in
    let key := key_source k in
    let polled n evs :=
      Client.mkWorld (Client.clock_reads w) (Client.replies_read w) n
        (Client.out w ++ evs) in
    if key =? -1 then (Done (active, samples), polled (S k) [])
    else if key =? 32 then
      (Done (active, SAMPLES), polled (S k) [Client.PrintSamples SAMPLES])
    else if key =? 224 then
      let samples' := arrow_capacity (key_source (S k)) samples in
      (Done (active, samples'),
       polled (S (S k)) [Client.PrintSamples samples'])
    else (Done (if key =? 113 then false else active, samples),
          polled (S k) []).
Proof.
  unfold Client.check_keys, bind, Client.getch, Client.emit, ret,
    arrow_capacity.
  cbv beta iota zeta. cbn [Client.keys_read Client.clock_reads
                           Client.replies_read Client.out].
  set (key := key_source (Client.keys_read w)).
  destruct (Z.eqb_spec key (-1)) as [Hidle | Hkey]; cbn [negb].
  - rewrite app_nil_r. reflexivity.
  - destruct (Z.eqb_spec key 32) as [H32 | H32].
    + rewrite H32. cbn [Z.eqb Pos.eqb]. reflexivity.
    + destruct (Z.eqb_spec key 224) as [H224 | H224].
      * rewrite H224. cbn [Z.eqb Pos.eqb]. reflexivity.
      * rewrite app_nil_r. reflexivity.
Qed.

(** ** A pass, block by block *)

Lemma capture_peak_run clock (bri : Z) (last_peak : Q) (w : Client.world) :
  Client.capture_peak clock bri last_peak w
    = (Done (peak_time clock (Client.clock_reads w) bri last_peak),
       Client.mkWorld (peak_reads (Client.clock_reads w) bri)
         (Client.replies_read w) (Client.keys_read w) (Client.out w)).
Proof.
  unfold Client.capture_peak, peak_time, peak_reads.
  destruct (bri >? 90); [reflexivity |]. destruct w; reflexivity.
Qed.

Lemma lamp_hue_run clock (last_peak max_enrg : Q) (w : Client.world) :
  Client.lamp_hue clock last_peak max_enrg w
    = (Done (hue_value clock (Client.clock_reads w) last_peak max_enrg),
       Client.mkWorld (hue_reads clock (Client.clock_reads w) last_peak max_enrg)
         (Client.replies_read w) (Client.keys_read w) (Client.out w)).
Proof.
  rewrite lamp_hue_cases. unfold hue_value, hue_reads. cbv zeta.
  destruct (Qlt_le_dec 13 (clock (Client.clock_reads w) - last_peak));
    [reflexivity |].
  destruct (Qlt_le_dec max_enrg (2 # 10000)); reflexivity.
Qed.

Lemma lamp_write_run (bri hue prev_bri : Z) (w : Client.world) :
  Client.lamp_write bri hue prev_bri w
    = (Done (if lamp_sent bri prev_bri then bri else prev_bri),
       with_events w
         (if lamp_sent bri prev_bri then lamp_commands bri hue else [])).
Proof.
  rewrite lamp_write_cases. unfold lamp_sent, lamp_commands.
  destruct (Z.abs (bri - prev_bri) >? 2); [reflexivity |].
  unfold with_events. rewrite app_nil_r. destruct w; reflexivity.
Qed.

Lemma check_keys_run key_source (active : bool) (samples : Z)
  (w : Client.world) :
  let key := key_source (Client.keys_read w) in
  let samples' :=
    key_capacity key (key_source (S (Client.keys_read w))) samples in
  Client.check_keys key_source active samples w
    = (Done (key_active key active, samples'),
       Client.mkWorld (Client.clock_reads w) (Client.replies_read w)
         (key_polls key (Client.keys_read w))
         (Client.out w ++ key_prints key samples')).
Proof.
  cbv zeta. rewrite check_keys_cases. cbv zeta.
  unfold key_active, key_capacity, key_polls, key_prints.
  set (key := key_source (Client.keys_read w)).
  destruct (Z.eqb_spec key (-1)) as [-> | Hidle]; [reflexivity |].
  destruct (Z.eqb_spec key 32) as [-> | H32]; [reflexivity |].
  destruct (Z.eqb_spec key 224) as [-> | H224]; [reflexivity |].
  reflexivity.
Qed.

(** [Client.breath_iter] computes [pass_result]. *)
Lemma breath_iter_run clock energy_reply key_source s w :
  Client.breath_iter clock energy_reply key_source s w
    = pass_result clock energy_reply key_source s w.
Proof.
  unfold Client.breath_iter, pass_result. cbv zeta.
  unfold bind at 1. unfold Client.send_string, Client.emit.
  unfold bind at 1. unfold Client.recv_pyobj.
  cbn [Client.clock_reads Client.replies_read Client.keys_read Client.out].
  set (sample := energy_reply (Client.replies_read w)).
  set (log := roll_log (Client.samples s) (Client.energy_log s) sample).
  unfold bind at 1.
  destruct (Client.normalize (Client.smooth log) log) as [[max_enrg bri0] | e];
    cbn [lift]; unfold ret at 1, raise; [| reflexivity].
  unfold bind at 1. rewrite capture_peak_run.
  unfold bind at 1. rewrite lamp_hue_run.
  unfold bind at 1. rewrite lamp_write_run.
  unfold bind at 1. rewrite check_keys_run.
  unfold ret, with_events.
  cbn [Client.clock_reads Client.replies_read Client.keys_read Client.out].
  rewrite <- !app_assoc. reflexivity.
Qed.

(** ** Induction along the loop *)

Lemma breath_setup_run clock energy_reply :
  Client.breath_setup clock energy_reply Client.world0
    = (Done (setup_frame clock energy_reply), setup_world energy_reply).
Proof. vm_compute. reflexivity. Qed.

Lemma loop_after_unfold clock energy_reply key_source (n : nat) :
  loop_after clock energy_reply key_source n
    = bind (Client.breath_setup clock energy_reply)
        (Client.breath_passes clock energy_reply key_source n) Client.world0.
Proof. unfold loop_after. reflexivity. Qed.

(** The loop after [n] passes, counted from the state the set-up leaves. *)
Lemma loop_after_passes clock energy_reply key_source (n : nat) :
  loop_after clock energy_reply key_source n
    = Client.breath_passes clock energy_reply key_source n
        (setup_frame clock energy_reply) (setup_world energy_reply).
Proof.
  rewrite loop_after_unfold. apply bind_step. apply breath_setup_run.
Qed.

Section LoopInduction.

Variable clock : nat -> Q.
Variable energy_reply : nat -> Q.
Variable key_source : nat -> Z.
Variable P : Client.frame -> Client.world -> Prop.

Hypothesis P_pass :
  forall s w s' w',
    P s w ->
    pass_result clock energy_reply key_source s w = (Done s', w') ->
    P s' w'.

Lemma breath_passes_invariant (n : nat) s w s' w' :
  P s w ->
  Client.breath_passes clock energy_reply key_source n s w = (Done s', w') ->
  P s' w'.
Proof.
  revert s w. induction n as [| n IH]; intros s w Hs Hrun.
  - inversion Hrun; subst. exact Hs.
  - cbn [Client.breath_passes] in Hrun.
    destruct (Client.active s).
    + apply bind_done in Hrun. destruct Hrun as (s1 & w1 & Hiter & Hrest).
      rewrite breath_iter_run in Hiter.
      apply (IH s1 w1); [| exact Hrest].
      exact (P_pass s w s1 w1 Hs Hiter).
    + inversion Hrun; subst. exact Hs.
Qed.

Lemma loop_after_invariant (n : nat) s w :
  P (setup_frame clock energy_reply) (setup_world energy_reply) ->
  loop_after clock energy_reply key_source n = (Done s, w) ->
  P s w.
Proof.
  intros Hstart Hrun. rewrite loop_after_passes in Hrun.
  exact (breath_passes_invariant n _ _ _ _ Hstart Hrun).
Qed.

End LoopInduction.

(** ** Sizes *)

Lemma roll_log_len (samples : Z) (energy_log : list Q) (enrg : Q) :
  0 < samples ->
  len (roll_log samples energy_log enrg)
    = Z.min (len energy_log + 1) samples.
Proof.
  intros Hpos.
  destruct (Z.lt_trichotomy (len energy_log) samples) as [Hlt | [Heq | Hgt]].
  - rewrite roll_log_below, len_snoc by assumption. lia.
  - rewrite roll_log_full, len_pop0_snoc by assumption. lia.
  - rewrite roll_log_over by lia.
    unfold len in *. rewrite length_skipn. lia.
Qed.

Lemma arrow_capacity_range (key samples : Z) :
  10 <= samples <= 250 -> 10 <= arrow_capacity key samples <= 250.
Proof.
  intros H. unfold arrow_capacity. cbv zeta. split_ifs; lia.
Qed.

Lemma key_capacity_range (key key2 samples : Z) :
  10 <= samples <= 250 -> 10 <= key_capacity key key2 samples <= 250.
Proof.
  intros H. unfold key_capacity, SAMPLES.
  pose proof (arrow_capacity_range key2 samples H).
  destruct (key =? -1), (key =? 32), (key =? 224); lia.
Qed.

Lemma pass_sized clock energy_reply key_source s w s' w' :
  sized s ->
  pass_result clock energy_reply key_source s w = (Done s', w') ->
  sized s'.
Proof.
  intros [Hcap Hlen] Hpass. unfold pass_result in Hpass. cbv zeta in Hpass.
  destruct (Client.normalize _ _) as [[max_enrg bri0] | e]; [| discriminate].
  inversion Hpass; subst s' w'. unfold sized.
  cbn [Client.samples Client.energy_log].
  split; [now apply key_capacity_range |].
  rewrite roll_log_len by lia. lia.
Qed.

(** X1.  In every state the control loop reaches, the capacity lies in
    10..250 and the window holds between 5 and 250 samples: the window is
    never empty and never shorter than the three samples the smoothing
    takes. *)
Theorem loop_sizes clock energy_reply key_source (n : nat) s w :
  loop_after clock energy_reply key_source n = (Done s, w) ->
  10 <= Client.samples s <= 250 /\
  5 <= len (Client.energy_log s) <= 250 /\
  len (py_slice_from (-3) (Client.energy_log s)) = 3.
Proof.
  intros Hrun.
  assert (Hsized : sized s).
  { apply (loop_after_invariant clock energy_reply key_source
             (fun s _ => sized s)) with (n := n) (w := w); [| | exact Hrun].
    - intros s0 w0 s1 w1. apply pass_sized.
    - unfold sized, setup_frame, SAMPLES, len. cbn. lia. }
  destruct Hsized as [Hcap Hlen].
  split; [exact Hcap | split; [exact Hlen |]].
  apply (len_slice_last (Client.energy_log s) 3). lia.
Qed.

Lemma loop_sizes_witness :
  exists s w,
    loop_after Examples.ticking_clock Examples.counting_replies
      Examples.five_downs 14 = (Done s, w) /\
    10 <= Client.samples s <= 250 /\
    5 <= len (Client.energy_log s) <= 250.
Proof.
  pose (r := loop_after Examples.ticking_clock Examples.counting_replies
               Examples.five_downs 14).
  pose (s := match fst r with Done s => s | _ => Examples.cut_frame end).
  assert (Hrun : loop_after Examples.ticking_clock Examples.counting_replies
                   Examples.five_downs 14 = (Done s, snd r))
    by (vm_compute; reflexivity).
  exists s, (snd r). split; [exact Hrun |].
  destruct (loop_sizes _ _ _ _ _ _ Hrun) as (Hcap & Hlen & _).
  split; assumption.
Defined.

(** ** When a pass fails *)





(** ** Brightness and hue: order and bounds *)

Lemma py_int_sign (x : Q) : (0 <= x)%Q -> 0 <= py_int x.
Proof.
  intros Hx. rewrite py_int_nonneg by assumption.
  change 0 with (Qfloor 0). now apply Qfloor_resp_le.
Qed.



(** [int(z / 42)] for an integer [z] is the quotient rounded toward zero. *)
Lemma py_int_div_42 (z : Z) : py_int (inject_Z z / 42) = Z.quot z 42.
Proof.
  unfold py_int, Qdiv, Qmult, Qinv, inject_Z. cbn.
  now rewrite Z.mul_1_r.
Qed.

Lemma boost_quot (bri hue : Z) :
  Client.boost bri hue = Z.min 255 (bri + Z.quot (hue - 43690) 42).
Proof.
  unfold Client.boost. cbv zeta. rewrite py_int_div_42.
  destruct (Z.gtb_spec (bri + Z.quot (hue - 43690) 42) 255); lia.
Qed.

(** X3.  The hue boost adds the integer quotient of (hue - 43690) by 42 to
    the brightness and caps the sum at 255.  A blue lamp (hue 43690) gets
    no boost; a red lamp (hue 65000) gets 507, so it is at full brightness
    whatever the breathing signal; the boost never lowers the order of two
    brightness values or of two hues. *)
Theorem boost_spec :
  (forall bri hue,
      Client.boost bri hue = Z.min 255 (bri + Z.quot (hue - 43690) 42)) /\
  (forall bri, Client.boost bri 43690 = Z.min 255 bri) /\
  (forall bri, -252 <= bri -> Client.boost bri 65000 = 255) /\
  (forall bri bri' hue hue',
      bri <= bri' -> hue <= hue' ->
      Client.boost bri hue <= Client.boost bri' hue').
Proof.
  split; [exact boost_quot | split; [| split]].
  - intros bri. rewrite boost_quot. cbn. f_equal. lia.
  - intros bri Hbri. rewrite boost_quot.
    change (Z.quot (65000 - 43690) 42) with 507. lia.
  - intros bri bri' hue hue' Hbri Hhue. rewrite !boost_quot.
    assert (Hq : Z.quot (hue - 43690) 42 <= Z.quot (hue' - 43690) 42)
      by (apply Z.quot_le_mono; lia).
    lia.
Qed.

Lemma boost_spec_witness :
  Client.boost 60 65000 = 255 /\ Client.boost 60 45290 <= Client.boost 61 46890.
Proof.
  destruct boost_spec as (_ & _ & Hred & Hmono).
  split.
  - apply Hred. lia.
  - apply Hmono; lia.
Defined.



(** ** What the lamp is sent *)

Lemma hue_value_le clock (k : nat) (last_peak max_enrg : Q) :
  hue_value clock k last_peak max_enrg <= 65000.
Proof.
  unfold hue_value, clamp_hue.
  destruct (Qlt_le_dec 13 (clock k - last_peak)); [lia |].
  destruct (Qlt_le_dec max_enrg (2 # 10000)); [lia |].
  destruct (Z.gtb_spec (43690 + 1600 * py_int (clock (S k) - last_peak))
              65000); lia.
Qed.

Lemma hue_value_ge clock (k : nat) (last_peak max_enrg : Q) :
  (last_peak <= clock (S k))%Q ->
  43690 <= hue_value clock k last_peak max_enrg.
Proof.
  intros Hmono. unfold hue_value, clamp_hue.
  destruct (Qlt_le_dec 13 (clock k - last_peak)); [lia |].
  destruct (Qlt_le_dec max_enrg (2 # 10000)); [lia |].
  assert (Hpos : 0 <= py_int (clock (S k) - last_peak))
    by (apply py_int_sign; lra).
  destruct (Z.gtb_spec (43690 + 1600 * py_int (clock (S k) - last_peak))
              65000); lia.
Qed.

Lemma hue_reads_gt clock (k : nat) (last_peak max_enrg : Q) :
  (k < hue_reads clock k last_peak max_enrg)%nat.
Proof.
  unfold hue_reads.
  destruct (Qlt_le_dec 13 (clock k - last_peak)); [lia |].
  destruct (Qlt_le_dec max_enrg (2 # 10000)); lia.
Qed.

(** The events a pass adds all satisfy [P] when the lamp commands do and
    [P] holds of every event that is not a lamp command. *)
Lemma pass_events_forall (P : Client.event -> Prop) (evs : list Client.event)
  (sample : Q) (sent : bool) (bri hue key samples : Z) :
  (forall e, (forall attr v, e <> Client.SetLight attr v) -> P e) ->
  P (Client.SetLight "bri" bri) -> P (Client.SetLight "hue" hue) ->
  Forall P evs ->
  Forall P (evs
              ++ [Client.SendString "energy"; Client.RecvPyobj sample]
              ++ (if sent then lamp_commands bri hue else [])
              ++ key_prints key samples).
Proof.
  intros Hother Hbri Hhue Hevs.
  assert (Hsend : forall msg, P (Client.SendString msg))
    by (intros; apply Hother; discriminate).
  assert (Hrecv : forall v, P (Client.RecvPyobj v))
    by (intros; apply Hother; discriminate).
  assert (Hsleep : forall q, P (Client.Sleep q))
    by (intros; apply Hother; discriminate).
  assert (Hprint : forall n, P (Client.PrintSamples n))
    by (intros; apply Hother; discriminate).
  apply Forall_app. split; [exact Hevs |].
  apply Forall_app. split; [repeat constructor; auto |].
  apply Forall_app. split.
  - destruct sent; unfold lamp_commands; repeat constructor; auto.
  - unfold key_prints. destruct ((key =? 32) || (key =? 224));
      repeat constructor; auto.
Qed.

Lemma lamp_capped_other (e : Client.event) :
  (forall attr v, e <> Client.SetLight attr v) -> lamp_capped e.
Proof.
  destruct e; intros H; cbn; auto. exfalso. now apply (H attr v).
Qed.

Lemma lamp_in_range_other (e : Client.event) :
  (forall attr v, e <> Client.SetLight attr v) -> lamp_in_range e.
Proof.
  destruct e; intros H; cbn; auto. exfalso. now apply (H attr v).
Qed.

Lemma setup_events_in_range energy_reply :
  Forall lamp_in_range (Client.out (setup_world energy_reply)).
Proof.
  unfold setup_world, exchanges. cbn.
  repeat (apply Forall_cons || apply Forall_nil); cbn; auto;
    split; intros H; (discriminate H || lia).
Qed.

Lemma lamp_in_range_capped (e : Client.event) :
  lamp_in_range e -> lamp_capped e.
Proof.
  destruct e; cbn; auto. intros [Hb Hh]. split; intros H.
  - specialize (Hb H). lia.
  - specialize (Hh H). lia.
Qed.

Lemma pass_lamp_safe clock energy_reply key_source s w s' w' :
  lamp_safe s w ->
  pass_result clock energy_reply key_source s w = (Done s', w') ->
  lamp_safe s' w'.
Proof.
  intros (Hhue & Hprev & Hout) Hpass.
  unfold pass_result in Hpass. cbv zeta in Hpass.
  destruct (Client.normalize _ _) as [[max_enrg bri0] | e]; [| discriminate].
  inversion Hpass; subst s' w'. unfold lamp_safe.
  cbn [Client.hue Client.prev_bri Client.out].
  set (lp := peak_time clock (Client.clock_reads w) bri0 (Client.last_peak s)).
  set (k1 := peak_reads (Client.clock_reads w) bri0).
  set (hue := hue_value clock k1 lp max_enrg).
  assert (Hhue' : hue <= 65000) by apply hue_value_le.
  assert (Hbri : Client.boost bri0 hue <= 255)
    by (rewrite boost_quot; lia).
  split; [exact Hhue' | split].
  - destruct (lamp_sent _ _); assumption.
  - apply pass_events_forall; [apply lamp_capped_other | | | exact Hout].
    + cbn. split; [intros _; exact Hbri | discriminate].
    + cbn. split; [discriminate | intros _; exact Hhue'].
Qed.

(** X5.  Whatever the sensor, the clock and the keys do, no brightness
    above 255 and no hue above 65000 is ever sent to the lamp, from the
    set-up on; nor are such values kept for the next pass. *)
Theorem lamp_never_over_range clock energy_reply key_source (n : nat) s w :
  loop_after clock energy_reply key_source n = (Done s, w) ->
  Client.hue s <= 65000 /\ Client.prev_bri s <= 255 /\
  forall attr v, In (Client.SetLight attr v) (Client.out w) ->
    (attr = "bri"%string -> v <= 255) /\ (attr = "hue"%string -> v <= 65000).
Proof.
  intros Hrun.
  assert (Hsafe : lamp_safe s w).
  { apply (loop_after_invariant clock energy_reply key_source lamp_safe)
      with (n := n); [| | exact Hrun].
    - apply pass_lamp_safe.
    - unfold lamp_safe. split; [cbn; lia | split; [cbn; lia |]].
      eapply Forall_impl; [| apply setup_events_in_range].
      apply lamp_in_range_capped. }
  destruct Hsafe as (Hhue & Hprev & Hout).
  split; [exact Hhue | split; [exact Hprev |]].
  intros attr v Hin. rewrite Forall_forall in Hout.
  exact (Hout _ Hin).
Qed.

Lemma lamp_never_over_range_witness :
  exists s w,
    loop_after Examples.ticking_clock Examples.counting_replies
      Examples.no_keys 2 = (Done s, w) /\
    Client.hue s <= 65000 /\ Client.prev_bri s <= 255.
Proof.
  pose (r := loop_after Examples.ticking_clock Examples.counting_replies
               Examples.no_keys 2).
  pose (s := match fst r with Done s => s | _ => Examples.cut_frame end).
  assert (Hrun : loop_after Examples.ticking_clock Examples.counting_replies
                   Examples.no_keys 2 = (Done s, snd r))
    by (vm_compute; reflexivity).
  exists s, (snd r). split; [exact Hrun |].
  destruct (lamp_never_over_range _ _ _ _ _ _ Hrun) as (Hhue & Hprev & _).
  split; assumption.
Defined.

Lemma roll_log_incl (samples : Z) (energy_log : list Q) (enrg x : Q) :
  In x (roll_log samples energy_log enrg) -> In x energy_log \/ x = enrg.
Proof.
  unfold roll_log, py_pop0.
  set (l1 := if len energy_log <=? samples then energy_log ++ [enrg]
             else energy_log).
  set (l2 := if len l1 =? samples + 1 then skipn 1 l1 else l1).
  assert (H1 : forall y, In y l1 -> In y energy_log \/ y = enrg).
  { intros y. unfold l1. destruct (len energy_log <=? samples); [| auto].
    intros Hin. apply in_app_or in Hin. destruct Hin as [Hin | [Hin | []]];
      auto. }
  assert (H2 : forall y, In y l2 -> In y l1).
  { intros y. unfold l2. destruct (len l1 =? samples + 1); [| auto].
    intros Hin. rewrite <- (firstn_skipn 1 l1). apply in_or_app. now right. }
  intros Hin. apply H1, H2.
  destruct (len l2 >? samples); [| exact Hin].
  now apply slice_from_incl in Hin.
Qed.

(** With no negative sample in the window and a division that succeeds, the
    brightness before the boost lies in 60..255. *)
Lemma normalize_in_range (energy_log : list Q) (max_enrg : Q) (bri : Z) :
  Forall (fun y => (0 <= y)%Q) energy_log ->
  Client.normalize (Client.smooth energy_log) energy_log = Ok (max_enrg, bri) ->
  (0 < max_enrg)%Q /\ 60 <= bri <= 255.
Proof.
  intros Hpos Hnorm.
  pose proof (normalize_max _ _ _ _ Hnorm) as Hmax.
  assert (Hm0 : (0 <= max_enrg)%Q).
  { rewrite Forall_forall in Hpos. apply Hpos. now apply py_max_in. }
  assert (Hnz : ~ (max_enrg == 0)%Q).
  { intros Hz. rewrite (normalize_zero_max _ _ _ Hmax Hz) in Hnorm.
    discriminate. }
  assert (Hm : (0 < max_enrg)%Q).
  { apply Qnot_le_lt. intros Hle. apply Hnz. lra. }
  split; [exact Hm |].
  rewrite (normalize_positive_max _ _ _ Hmax Hm) in Hnorm.
  inversion Hnorm as [Hbri]. clear Hnorm Hbri.
  pose proof (smooth_bounds energy_log max_enrg Hmax Hpos) as Hsmooth.
  destruct (ratio_unit_interval (Client.smooth energy_log - 0)
              (max_enrg - 0)) as [H0 H1]; [lra | lra |].
  apply py_int_bounds; [| | lia].
  - change (inject_Z 60) with 60%Q. lra.
  - change (inject_Z 255) with 255%Q. lra.
Qed.

Section WellBehaved.

Variable clock : nat -> Q.
Variable energy_reply : nat -> Q.
Variable key_source : nat -> Z.

Hypothesis clock_monotone : monotone_clock clock.
Hypothesis replies_nonneg : nonneg_replies energy_reply.

Lemma pass_well_lit s w s' w' :
  well_lit clock s w ->
  pass_result clock energy_reply key_source s w = (Done s', w') ->
  well_lit clock s' w'.
Proof.
  intros (Hsized & Hlog & (j & Hj & Hpeak) & Hhue & Hprev & Hout) Hpass.
  assert (Hsized' : sized s') by exact (pass_sized _ _ _ _ _ _ _ Hsized Hpass).
  unfold pass_result in Hpass. cbv zeta in Hpass.
  set (sample := energy_reply (Client.replies_read w)) in *.
  set (log := roll_log (Client.samples s) (Client.energy_log s) sample) in *.
  assert (Hlog' : Forall (fun y => (0 <= y)%Q) log).
  { rewrite Forall_forall in *. intros x Hx.
    apply roll_log_incl in Hx. destruct Hx as [Hx | ->]; [auto |].
    apply replies_nonneg. }
  destruct (Client.normalize (Client.smooth log) log)
    as [[max_enrg bri0] | e] eqn:Hnorm; [| discriminate].
  destruct (normalize_in_range log max_enrg bri0 Hlog' Hnorm) as [_ Hbri0].
  set (k := Client.clock_reads w) in *.
  set (lp := peak_time clock k bri0 (Client.last_peak s)) in *.
  set (k1 := peak_reads k bri0) in *.
  assert (Hlp : exists j', (j' < k1)%nat /\ lp = clock j').
  { unfold lp, k1, peak_time, peak_reads. destruct (bri0 >? 90).
    - exists k. split; [lia | reflexivity].
    - exists j. split; [exact Hj | exact Hpeak]. }
  destruct Hlp as (j' & Hj' & Hlp).
  set (hue := hue_value clock k1 lp max_enrg) in *.
  assert (Hhue' : 43690 <= hue <= 65000).
  { split; [| apply hue_value_le]. apply hue_value_ge.
    rewrite Hlp. apply clock_monotone. lia. }
  assert (Hbri : 60 <= Client.boost bri0 hue <= 255).
  { rewrite boost_quot.
    assert (0 <= Z.quot (hue - 43690) 42) by (apply Z.quot_pos; lia).
    lia. }
  inversion Hpass; subst s' w'. unfold well_lit.
  cbn [Client.energy_log Client.last_peak Client.hue Client.prev_bri
       Client.clock_reads Client.out].
  split; [exact Hsized' |].
  split; [exact Hlog' |].
  split.
  { exists j'. split; [| exact Hlp].
    pose proof (hue_reads_gt clock k1 lp max_enrg). lia. }
  split; [exact Hhue' |].
  split; [destruct (lamp_sent _ _); lia |].
  apply pass_events_forall; [apply lamp_in_range_other | | | exact Hout].
  - cbn. split; [intros _; exact Hbri | discriminate].
  - cbn. split; [discriminate | intros _; exact Hhue'].
Qed.

Lemma setup_well_lit :
  well_lit clock (setup_frame clock energy_reply) (setup_world energy_reply).
Proof.
  unfold well_lit.
  split; [unfold sized, setup_frame, SAMPLES, len; cbn; lia |].
  split; [unfold setup_frame; cbn; repeat constructor; apply replies_nonneg |].
  split; [exists 0%nat; split; [cbn; lia | reflexivity] |].
  split; [cbn; lia |].
  split; [cbn; lia |].
  apply setup_events_in_range.
Qed.

Lemma loop_well_lit (n : nat) s w :
  loop_after clock energy_reply key_source n = (Done s, w) ->
  well_lit clock s w.
Proof.
  intros Hrun.
  apply (loop_after_invariant clock energy_reply key_source (well_lit clock))
    with (n := n); [| | exact Hrun].
  - apply pass_well_lit.
  - apply setup_well_lit.
Qed.

End WellBehaved.

(** X6.  With a clock that never runs backwards and a sensor that never
    reads a negative energy, every brightness sent to the lamp lies in
    60..255 and every hue in 43690..65000, the hue kept between passes lies
    in 43690..65000, and the window never holds a negative sample. *)
Theorem lamp_always_in_range clock energy_reply key_source (n : nat) s w :
  monotone_clock clock -> nonneg_replies energy_reply ->
  loop_after clock energy_reply key_source n = (Done s, w) ->
  43690 <= Client.hue s <= 65000 /\
  Forall (fun y => (0 <= y)%Q) (Client.energy_log s) /\
  forall attr v, In (Client.SetLight attr v) (Client.out w) ->
    (attr = "bri"%string -> 60 <= v <= 255) /\
    (attr = "hue"%string -> 43690 <= v <= 65000).
Proof.
  intros Hclock Hreplies Hrun.
  destruct (loop_well_lit clock energy_reply key_source Hclock Hreplies
              n s w Hrun) as (_ & Hlog & _ & Hhue & _ & Hout).
  split; [exact Hhue | split; [exact Hlog |]].
  intros attr v Hin. rewrite Forall_forall in Hout.
  exact (Hout _ Hin).
Qed.

Lemma lamp_always_in_range_witness :
  exists s w,
    loop_after Examples.ticking_clock Examples.counting_replies
      Examples.no_keys 2 = (Done s, w) /\
    43690 <= Client.hue s <= 65000.
Proof.
  pose (r := loop_after Examples.ticking_clock Examples.counting_replies
               Examples.no_keys 2).
  pose (s := match fst r with Done s => s | _ => Examples.cut_frame end).
  assert (Hrun : loop_after Examples.ticking_clock Examples.counting_replies
                   Examples.no_keys 2 = (Done s, snd r))
    by (vm_compute; reflexivity).
  assert (Hclock : monotone_clock Examples.ticking_clock).
  { intros i j Hij. unfold Examples.ticking_clock.
    rewrite <- Zle_Qle. lia. }
  assert (Hreplies : nonneg_replies Examples.counting_replies).
  { intros i. unfold Examples.counting_replies.
    change 0%Q with (inject_Z 0). rewrite <- Zle_Qle. lia. }
  exists s, (snd r). split; [exact Hrun |].
  exact (proj1 (lamp_always_in_range _ _ _ _ _ _ Hclock Hreplies Hrun)).
Defined.

(** ** Requests and replies *)

Lemma exchanges_succ energy_reply (n : nat) :
  exchanges energy_reply (S n)
    = exchanges energy_reply n
        ++ [Client.SendString "energy"; Client.RecvPyobj (energy_reply n)].
Proof.
  unfold exchanges. rewrite seq_S, flat_map_app. cbn.
  reflexivity.
Qed.

Lemma pass_socket_events (evs : list Client.event) (sample : Q) (sent : bool)
  (bri hue key samples : Z) :
  filter is_socket_event
    (evs ++ [Client.SendString "energy"; Client.RecvPyobj sample]
         ++ (if sent then lamp_commands bri hue else [])
         ++ key_prints key samples)
  = filter is_socket_event evs
      ++ [Client.SendString "energy"; Client.RecvPyobj sample].
Proof.
  rewrite !filter_app. f_equal.
  assert (Hlamp : filter is_socket_event
                    (if sent then lamp_commands bri hue else []) = [])
    by (destruct sent; reflexivity).
  assert (Hkeys : filter is_socket_event (key_prints key samples) = [])
    by (unfold key_prints; destruct ((key =? 32) || (key =? 224));
        reflexivity).
  rewrite Hlamp, Hkeys. reflexivity.
Qed.

(** X7.  On the socket the control loop strictly alternates: each request
    is "energy", each is followed by exactly one reply before the next
    request, and the replies are taken in the order the server gives them.
    After the set-up and any number of passes the socket has seen exactly
    the first [k] exchanges, [k] being the number of replies read; a pass
    that completes adds exactly one. *)
Theorem socket_alternates clock energy_reply key_source :
  (forall (n : nat) s w,
      loop_after clock energy_reply key_source n = (Done s, w) ->
      filter is_socket_event (Client.out w)
        = exchanges energy_reply (Client.replies_read w)) /\
  (forall s w s' w',
      Client.breath_iter clock energy_reply key_source s w = (Done s', w') ->
      Client.replies_read w' = S (Client.replies_read w) /\
      filter is_socket_event (Client.out w')
        = filter is_socket_event (Client.out w)
            ++ [Client.SendString "energy";
                Client.RecvPyobj (energy_reply (Client.replies_read w))]).
Proof.
  assert (Hpass : forall s w s' w',
             pass_result clock energy_reply key_source s w = (Done s', w') ->
             Client.replies_read w' = S (Client.replies_read w) /\
             filter is_socket_event (Client.out w')
             = filter is_socket_event (Client.out w)
                 ++ [Client.SendString "energy";
                     Client.RecvPyobj (energy_reply (Client.replies_read w))]).
  { intros s w s' w' H. unfold pass_result in H. cbv zeta in H.
    destruct (Client.normalize _ _) as [[max_enrg bri0] | e]; [| discriminate].
    inversion H; subst s' w'.
    cbn [Client.replies_read Client.out].
    split; [reflexivity | apply pass_socket_events]. }
  split.
  - intros n s w Hrun.
    apply (loop_after_invariant clock energy_reply key_source
             (fun _ w => filter is_socket_event (Client.out w)
                         = exchanges energy_reply (Client.replies_read w)))
      with (n := n) (s := s); [| | exact Hrun].
    + intros s0 w0 s1 w1 Hinv H.
      destruct (Hpass s0 w0 s1 w1 H) as [Hread Hout].
      rewrite Hout, Hread, Hinv, exchanges_succ. reflexivity.
    + reflexivity.
  - intros s w s' w' H. rewrite breath_iter_run in H.
    exact (Hpass s w s' w' H).
Qed.

Lemma socket_alternates_witness :
  exists s w,
    loop_after Examples.ticking_clock Examples.counting_replies
      Examples.no_keys 2 = (Done s, w) /\
    filter is_socket_event (Client.out w)
      = exchanges Examples.counting_replies 7.
Proof.
  pose (r := loop_after Examples.ticking_clock Examples.counting_replies
               Examples.no_keys 2).
  pose (s := match fst r with Done s => s | _ => Examples.cut_frame end).
  assert (Hrun : loop_after Examples.ticking_clock Examples.counting_replies
                   Examples.no_keys 2 = (Done s, snd r))
    by (vm_compute; reflexivity).
  exists s, (snd r). split; [exact Hrun |].
  exact (proj1 (socket_alternates _ _ _) _ _ _ Hrun).
Defined.

(** ** Leaving the loop *)

Lemma breath_while_inactive clock energy_reply key_source (fuel : nat) s w :
  Client.active s = false ->
  Client.breath_while clock energy_reply key_source fuel s w = (Done s, w).
Proof.
  intros Hoff. destruct fuel; cbn [Client.breath_while]; rewrite Hoff;
    reflexivity.
Qed.

Lemma breath_while_of_passes clock energy_reply key_source (n : nat) :
  forall (fuel : nat) s w s' w',
    (n <= fuel)%nat ->
    Client.breath_passes clock energy_reply key_source n s w = (Done s', w') ->
    Client.active s' = false ->
    Client.breath_while clock energy_reply key_source fuel s w = (Done s', w').
Proof.
  induction n as [| n IH]; intros fuel s w s' w' Hfuel Hrun Hoff.
  - inversion Hrun; subst. now apply breath_while_inactive.
  - cbn [Client.breath_passes] in Hrun.
    destruct (Client.active s) eqn:Hact.
    + destruct fuel as [| fuel]; [lia |].
      cbn [Client.breath_while]. rewrite Hact.
      apply bind_done in Hrun. destruct Hrun as (s1 & w1 & Hiter & Hrest).
      rewrite (bind_step _ _ _ _ _ Hiter).
      apply (IH fuel s1 w1 s' w'); [lia | exact Hrest | exact Hoff].
    + inversion Hrun; subst. now apply breath_while_inactive.
Qed.

(** X8.  A pass switches [active] off exactly when the first key it polls
    is 113 ('q'); a 113 that arrives as the second byte of a special key
    does not stop the loop.  Once the loop has reached, within [n] passes, a
    state with [active] off, [while active] returns that state for every
    number of steps it is given from [n] on. *)
Theorem loop_stops_on_q clock energy_reply key_source :
  (forall s w s' w',
      Client.breath_iter clock energy_reply key_source s w = (Done s', w') ->
      Client.active s'
        = if key_source (Client.keys_read w) =? 113 then false
          else Client.active s) /\
  (forall (n fuel : nat) s w s' w',
      (n <= fuel)%nat ->
      Client.breath_passes clock energy_reply key_source n s w
        = (Done s', w') ->
      Client.active s' = false ->
      Client.breath_while clock energy_reply key_source fuel s w
        = (Done s', w')).
Proof.
  split.
  - intros s w s' w' H. rewrite breath_iter_run in H.
    unfold pass_result in H. cbv zeta in H.
    destruct (Client.normalize _ _) as [[max_enrg bri0] | e]; [| discriminate].
    inversion H; subst s' w'. reflexivity.
  - intros n. exact (breath_while_of_passes clock energy_reply key_source n).
Qed.

Lemma loop_stops_on_q_witness :
  exists s w,
    Client.breath_while Examples.ticking_clock Examples.counting_replies
      (Examples.keys_of [-1; 224; 113; 113]) 10
      (setup_frame Examples.ticking_clock Examples.counting_replies)
      (setup_world Examples.counting_replies) = (Done s, w) /\
    Client.keys_read w = 4%nat.
Proof.
  pose (r := Client.breath_passes Examples.ticking_clock
               Examples.counting_replies
               (Examples.keys_of [-1; 224; 113; 113]) 3
               (setup_frame Examples.ticking_clock Examples.counting_replies)
               (setup_world Examples.counting_replies)).
  pose (s := match fst r with Done s => s | _ => Examples.cut_frame end).
  assert (Hrun : Client.breath_passes Examples.ticking_clock
                   Examples.counting_replies
                   (Examples.keys_of [-1; 224; 113; 113]) 3
                   (setup_frame Examples.ticking_clock
                      Examples.counting_replies)
                   (setup_world Examples.counting_replies) = (Done s, snd r))
    by (vm_compute; reflexivity).
  exists s, (snd r). split.
  - apply (proj2 (loop_stops_on_q _ _ _) 3%nat 10%nat _ _ _ _); [lia | exact Hrun |].
    vm_compute. reflexivity.
  - vm_compute. reflexivity.
Defined.

(** ** The script around the loop *)

Lemma pass_no_shutdown clock energy_reply key_source s w r w' :
  pass_result clock energy_reply key_source s w = (r, w') ->
  Forall not_shutdown_event (Client.out w) ->
  Forall not_shutdown_event (Client.out w').
Proof.
  intros Hpass Hout. unfold pass_result in Hpass. cbv zeta in Hpass.
  destruct (Client.normalize _ _) as [[max_enrg bri0] | e];
    inversion Hpass; subst.
  - cbn [Client.out].
    apply Forall_app. split; [exact Hout |].
    apply Forall_cons; [reflexivity |].
    apply Forall_cons; [exact I |].
    apply Forall_app. split.
    + destruct (lamp_sent _ _); unfold lamp_commands; repeat constructor.
    + unfold key_prints. destruct ((_ =? 32) || (_ =? 224));
        repeat constructor.
  - unfold after_exchange. cbn [Client.out].
    apply Forall_app. split; [| repeat constructor].
    apply Forall_app. split; [exact Hout | repeat constructor].
Qed.

Lemma breath_while_no_shutdown clock energy_reply key_source (fuel : nat) :
  forall s w r w',
    Client.breath_while clock energy_reply key_source fuel s w = (r, w') ->
    Forall not_shutdown_event (Client.out w) ->
    Forall not_shutdown_event (Client.out w').
Proof.
  induction fuel as [| fuel IH]; intros s w r w' Hrun Hout;
    cbn [Client.breath_while] in Hrun; destruct (Client.active s).
  - inversion Hrun; subst. exact Hout.
  - inversion Hrun; subst. exact Hout.
  - unfold bind in Hrun.
    destruct (Client.breath_iter clock energy_reply key_source s w)
      as [[s1 | e |] w1] eqn:Hiter;
      rewrite breath_iter_run in Hiter;
      pose proof (pass_no_shutdown _ _ _ _ _ _ _ Hiter Hout) as Hout1.
    + exact (IH s1 w1 r w' Hrun Hout1).
    + inversion Hrun; subst. exact Hout1.
    + inversion Hrun; subst. exact Hout1.
  - inversion Hrun; subst. exact Hout.
Qed.

Lemma breath_setup_at_monitor_start clock energy_reply :
  Client.breath_setup clock energy_reply monitor_start
    = (Done (setup_frame clock energy_reply),
       Client.mkWorld 1 5 0
         (Client.out monitor_start
            ++ Client.out (setup_world energy_reply))).
Proof. vm_compute. reflexivity. Qed.

Lemma monitor_setup_no_shutdown energy_reply :
  Forall not_shutdown_event
    (Client.out monitor_start ++ Client.out (setup_world energy_reply)).
Proof. cbn. repeat constructor. Qed.

Lemma bind_out_of_fuel {W A B : Type} (m : M W A) (k : A -> M W B) w w1 :
  m w = (OutOfFuel, w1) -> bind m k w = (OutOfFuel, w1).
Proof. intros H. unfold bind. now rewrite H. Qed.

Lemma breath_loop_unfold clock energy_reply key_source (fuel : nat) w :
  Client.breath_loop clock energy_reply key_source fuel w
    = bind (Client.breath_setup clock energy_reply)
        (fun s => bind (Client.breath_while clock energy_reply key_source
                          fuel s)
                    (fun _ => ret tt)) w.
Proof. reflexivity. Qed.

Lemma breath_loop_no_shutdown clock energy_reply key_source (fuel : nat) r w :
  Client.breath_loop clock energy_reply key_source fuel monitor_start = (r, w) ->
  Forall not_shutdown_event (Client.out w).
Proof.
  intros Hloop. rewrite breath_loop_unfold in Hloop.
  rewrite (bind_step _ _ _ _ _ (breath_setup_at_monitor_start clock energy_reply))
    in Hloop.
  destruct (Client.breath_while clock energy_reply key_source fuel
              (setup_frame clock energy_reply)
              (Client.mkWorld 1 5 0
                 (Client.out monitor_start
                    ++ Client.out (setup_world energy_reply))))
    as [[s1 | e |] w1] eqn:Hwhile;
    pose proof (breath_while_no_shutdown _ _ _ _ _ _ _ _ Hwhile
                  (monitor_setup_no_shutdown energy_reply)) as Hout.
  - rewrite (bind_step _ _ _ _ _ Hwhile) in Hloop.
    inversion Hloop; subst. exact Hout.
  - rewrite (bind_raised _ _ _ _ _ Hwhile) in Hloop.
    inversion Hloop; subst. exact Hout.
  - rewrite (bind_out_of_fuel _ _ _ _ Hwhile) in Hloop.
    inversion Hloop; subst. exact Hout.
Qed.

(** The script, once the server is ready, does what the control loop does
    and goes on to the shutdown only if the loop returns. *)
Lemma main_of_loop clock energy_reply key_source stop_reply (fuel : nat) r w :
  Client.breath_loop clock energy_reply key_source fuel monitor_start = (r, w) ->
  Client.main clock energy_reply key_source true stop_reply fuel Client.world0
    = match r with
      | Done _ => Client.shutdown stop_reply w
      | Raised e => (Raised e, w)
      | OutOfFuel => (OutOfFuel, w)
      end.
Proof.
  intros Hloop. unfold Client.main.
  unfold bind at 1. unfold bind at 1. unfold bind at 1. unfold bind at 1.
  unfold bind at 1.
  cbn [Client.emit Client.world0 Client.clock_reads Client.replies_read
       Client.keys_read Client.out app].
  unfold monitor_start, with_events in Hloop.
  cbn [Client.world0 Client.clock_reads Client.replies_read
       Client.keys_read Client.out app] in Hloop.
  rewrite Hloop. destruct r; reflexivity.
Qed.


(** X10.  The control loop itself never sends "stop" and never joins or
    terminates the server process, however it ends.  So when it ends in an
    exception, the script ends in that exception: the shutdown handshake is
    skipped and the server process is left as it is. *)
Theorem loop_failure_skips_shutdown clock energy_reply key_source stop_reply
  (fuel : nat) r w :
  Client.breath_loop clock energy_reply key_source fuel monitor_start = (r, w) ->
  Forall not_shutdown_event (Client.out w) /\
  (forall e, r = Raised e ->
     Client.main clock energy_reply key_source true stop_reply fuel
       Client.world0 = (Raised e, w)).
Proof.
  intros Hloop. split.
  - exact (breath_loop_no_shutdown _ _ _ _ _ _ Hloop).
  - intros e ->.
    exact (main_of_loop clock energy_reply key_source stop_reply fuel
             (Raised e) w Hloop).
Qed.

Lemma loop_failure_skips_shutdown_witness :
  exists w,
    Client.main Examples.ticking_clock Examples.silent_replies Examples.no_keys
      true "stopped" 1 Client.world0 = (Raised ZeroDivisionError, w) /\
    Forall not_shutdown_event (Client.out w).
Proof.
  pose (w := snd (Client.breath_loop Examples.ticking_clock
                    Examples.silent_replies Examples.no_keys 1 monitor_start)).
  assert (Hloop : Client.breath_loop Examples.ticking_clock
                    Examples.silent_replies Examples.no_keys 1 monitor_start
                  = (Raised ZeroDivisionError, w))
    by (vm_compute; reflexivity).
  exists w.
  destruct (loop_failure_skips_shutdown Examples.ticking_clock
              Examples.silent_replies Examples.no_keys "stopped"%string
              1%nat _ _ Hloop) as [Hout Hmain].
  split; [exact (Hmain ZeroDivisionError eq_refl) | exact Hout].
Defined.

(** ** The exit code of the script *)







(** * Further properties of the server loop *)

Section ServerRuns.

Variable request : nat -> option string.
Variable image_energy : nat -> Q.

#[local] Abbreviation run_iter := (Server.run_iter request image_energy).
#[local] Abbreviation run_passes := (Server.run_passes request image_energy).
#[local] Abbreviation run_while := (Server.run_while request image_energy).

Lemma idle_polls_succ (k : nat) :
  idle_polls request (S k)
    = (idle_polls request k
       + match request k with None => 1 | Some _ => 0 end)%nat.
Proof.
  unfold idle_polls. rewrite seq_S, filter_app, length_app. cbn.
  destruct (request k); reflexivity.
Qed.

Lemma polls_with_succ (msg : string) (k : nat) :
  polls_with msg request (S k)
    = (polls_with msg request k
       + match request k with
         | Some m => if String.eqb m msg then 1 else 0
         | None => 0
         end)%nat.
Proof.
  unfold polls_with. rewrite seq_S, filter_app, length_app. cbn.
  destruct (request k) as [m |]; [| reflexivity].
  destruct (String.eqb m msg); reflexivity.
Qed.

Lemma captures_of_succ (n : nat) :
  captures_of image_energy (S n)
    = captures_of image_energy n
        ++ [Server.Trigger; Server.GetImageEnergy (image_energy n)].
Proof.
  unfold captures_of. rewrite seq_S, flat_map_app. reflexivity.
Qed.

Lemma run_iter_counts s w s' w' :
  server_counts request image_energy s w ->
  run_iter s w = (Done s', w') ->
  server_counts request image_energy s' w'.
Proof.
  intros (Hinv & Hidle & Hreplies & Hcaps & Hstop) Hrun.
  pose proof (run_iter_inv request image_energy s s' w w' Hinv Hrun) as Hinv'.
  unfold server_counts. split; [exact Hinv' |].
  destruct Hinv as [Hmsg Hen].
  rewrite (run_iter_cases request image_energy s w Hmsg) in Hrun.
  cbv zeta in Hrun.
  destruct (request (Server.polls w)) as [msg |] eqn:Hreq.
  - destruct (String.eqb msg "stop") eqn:Hs.
    + inversion Hrun; subst s' w'.
      cbn [Server.polls Server.captures Server.out Server.capture].
      rewrite idle_polls_succ, !polls_with_succ, Hreq.
      apply String.eqb_eq in Hs. subst msg. cbn [String.eqb Ascii.eqb Bool.eqb].
      repeat split; try lia; try assumption.
    + destruct (String.eqb msg "energy") eqn:He.
      * destruct (Server.energy s) as [v |]; [| discriminate].
        inversion Hrun; subst s' w'.
        cbn [Server.polls Server.captures Server.out Server.capture].
        rewrite idle_polls_succ, !polls_with_succ, Hreq, He, Hs.
        rewrite !filter_app, length_app. cbn [filter is_reply is_capture List.length].
        rewrite app_nil_r.
        repeat split; try lia; try assumption.
        intros Hc. rewrite (Hstop Hc). reflexivity.
      * inversion Hrun; subst s' w'.
        cbn [Server.polls Server.captures Server.out Server.capture].
        rewrite idle_polls_succ, !polls_with_succ, Hreq, He, Hs.
        repeat split; try lia; try assumption.
        intros Hc. rewrite (Hstop Hc). reflexivity.
  - inversion Hrun; subst s' w'.
    cbn [Server.polls Server.captures Server.out Server.capture].
    rewrite idle_polls_succ, !polls_with_succ, Hreq, captures_of_succ.
    rewrite !filter_app, length_app. cbn [filter is_reply is_capture List.length].
    repeat split; try lia.
    + rewrite Hcaps. reflexivity.
    + intros Hc. rewrite (Hstop Hc). reflexivity.
Qed.

Lemma run_passes_counts (n : nat) s w s' w' :
  server_counts request image_energy s w ->
  run_passes n s w = (Done s', w') ->
  server_counts request image_energy s' w'.
Proof.
  revert s w. induction n as [| n IH]; intros s w Hinv Hrun.
  - inversion Hrun; subst. exact Hinv.
  - cbn [Server.run_passes] in Hrun.
    destruct (Server.capture s).
    + apply bind_done in Hrun. destruct Hrun as (s1 & w1 & Hiter & Hrest).
      apply (IH s1 w1); [| exact Hrest].
      now apply (run_iter_counts s w s1 w1).
    + inversion Hrun; subst. exact Hinv.
Qed.

Lemma server_counts_start :
  server_counts request image_energy Server.frame0 Server.world0.
Proof.
  unfold server_counts. split; [apply server_inv_start |].
  repeat split; reflexivity.
Qed.

End ServerRuns.

(** X11.  In a server that is still running after any number of passes:
    the captures made are exactly the idle polls, each a trigger followed by
    one reading, in order; the energy replies sent are exactly as many as
    the "energy" requests polled; no "stop" request has been polled. *)
Theorem server_bookkeeping request image_energy (n : nat) s w :
  server_after request image_energy n = (Done s, w) ->
  Server.captures w = idle_polls request (Server.polls w) /\
  filter is_capture (Server.out w)
    = captures_of image_energy (Server.captures w) /\
  List.length (filter is_reply (Server.out w))
    = polls_with "energy" request (Server.polls w) /\
  (Server.capture s = true ->
   polls_with "stop" request (Server.polls w) = 0%nat).
Proof.
  intros Hrun.
  destruct (run_passes_counts request image_energy n _ _ _ _
              (server_counts_start request image_energy) Hrun)
    as (_ & Hidle & Hreplies & Hcaps & Hstop).
  repeat split; assumption.
Qed.

Lemma server_bookkeeping_witness :
  exists s w,
    server_after
      (fun i => nth i [None; Some "energy"%string; None] (Some "energy"%string))
      (fun c => inject_Z (Z.of_nat c)) 4 = (Done s, w) /\
    Server.captures w = 2%nat /\
    List.length (filter is_reply (Server.out w)) = 2%nat.
Proof.
  eexists. eexists. split; [vm_compute; reflexivity |].
  destruct (server_bookkeeping
              (fun i => nth i [None; Some "energy"%string; None]
                          (Some "energy"%string))
              (fun c => inject_Z (Z.of_nat c)) 4 _ _ eq_refl)
    as (Hidle & _ & Hreplies & _).
  split; [exact Hidle | exact Hreplies].
Defined.

(** ** When the server fails, and how it stops *)

Section ServerEnds.

Variable request : nat -> option string.
Variable image_energy : nat -> Q.

#[local] Abbreviation run_iter := (Server.run_iter request image_energy).
#[local] Abbreviation run_passes := (Server.run_passes request image_energy).
#[local] Abbreviation run_while := (Server.run_while request image_energy).




Lemma run_while_stopped (fuel : nat) s w :
  Server.capture s = false -> run_while fuel s w = (Done s, w).
Proof.
  intros Hoff. destruct fuel; cbn [Server.run_while]; rewrite Hoff;
    reflexivity.
Qed.

Lemma run_while_of_passes (n : nat) :
  forall (fuel : nat) s w s' w',
    (n <= fuel)%nat ->
    run_passes n s w = (Done s', w') ->
    Server.capture s' = false ->
    run_while fuel s w = (Done s', w').
Proof.
  induction n as [| n IH]; intros fuel s w s' w' Hfuel Hrun Hoff.
  - inversion Hrun; subst. now apply run_while_stopped.
  - cbn [Server.run_passes] in Hrun.
    destruct (Server.capture s) eqn:Hcap.
    + destruct fuel as [| fuel]; [lia |].
      cbn [Server.run_while]. rewrite Hcap.
      apply bind_done in Hrun. destruct Hrun as (s1 & w1 & Hiter & Hrest).
      rewrite (bind_step _ _ _ _ _ Hiter).
      apply (IH fuel s1 w1 s' w'); [lia | exact Hrest | exact Hoff].
    + inversion Hrun; subst. now apply run_while_stopped.
Qed.

Lemma run_passes_S (n : nat) s w :
  run_passes (S n) s w
    = if Server.capture s then bind (run_iter s) (run_passes n) w
      else (Done s, w).
Proof. cbn [Server.run_passes]. destruct (Server.capture s); reflexivity. Qed.

(** One more pass after [n] passes that left the server running. *)
Lemma run_passes_snoc (n : nat) :
  forall s w s1 w1,
    run_passes n s w = (Done s1, w1) ->
    Server.capture s1 = true ->
    run_passes (S n) s w = run_iter s1 w1.
Proof.
  induction n as [| n IH]; intros s w s1 w1 Hrun Hcap.
  - inversion Hrun; subst. cbn [Server.run_passes]. rewrite Hcap.
    unfold bind. destruct (run_iter s1 w1) as [[s2 | e |] w2]; reflexivity.
  - cbn [Server.run_passes] in Hrun.
    destruct (Server.capture s) eqn:Hs.
    + apply bind_done in Hrun. destruct Hrun as (s2 & w2 & Hiter & Hrest).
      rewrite run_passes_S, Hs, (bind_step _ _ _ _ _ Hiter).
      exact (IH s2 w2 s1 w1 Hrest Hcap).
    + inversion Hrun; subst. congruence.
Qed.

End ServerEnds.



(** X13.  When a running server polls "stop" it sends nothing but a final
    "stopped" and returns: [run] ends normally for every number of steps
    larger than the number of passes made so far, no capture is triggered
    and no energy is sent after the request. *)
Theorem server_stops_on_request request image_energy (n fuel : nat) s w :
  server_after request image_energy n = (Done s, w) ->
  Server.capture s = true ->
  request (Server.polls w) = Some "stop"%string ->
  (n < fuel)%nat ->
  Server.run request image_energy fuel Server.world0
    = (Done tt,
       Server.mkWorld (S (Server.polls w)) (Server.captures w)
         (Server.out w ++ [Server.SendString "stopped"])).
Proof.
  intros Hrun Hcap Hreq Hfuel. unfold server_after in Hrun.
  destruct (run_passes_inv request image_energy n _ _ _ _
              (server_inv_start image_energy) Hrun) as [Hmsg _].
  pose proof (run_passes_snoc request image_energy n _ _ _ _ Hrun Hcap)
    as Hnext.
  rewrite (run_iter_cases request image_energy s w Hmsg) in Hnext.
  cbv zeta in Hnext. rewrite Hreq in Hnext.
  cbn [String.eqb Ascii.eqb Bool.eqb] in Hnext.
  unfold Server.run.
  rewrite (bind_step _ _ _ _ _
             (run_while_of_passes request image_energy (S n) fuel _ _ _ _
                Hfuel Hnext eq_refl)).
  reflexivity.
Qed.

Lemma server_stops_on_request_witness :
  exists w,
    Server.run (fun i => nth i [None; Some "energy"%string] (Some "stop"%string))
      (fun _ => 1%Q) 5 Server.world0 = (Done tt, w) /\
    Server.out w = [Server.Trigger; Server.GetImageEnergy 1; Server.SendPyobj 1;
                    Server.SendString "stopped"].
Proof.
  eexists. split.
  - apply (server_stops_on_request
             (fun i => nth i [None; Some "energy"%string] (Some "stop"%string))
             (fun _ => 1%Q) 2 5
             (Server.mkFrame true "" (Some 1%Q))
             (Server.mkWorld 2 1 [Server.Trigger; Server.GetImageEnergy 1;
                                  Server.SendPyobj 1])).
    + reflexivity.
    + reflexivity.
    + reflexivity.
    + lia.
  - reflexivity.
Defined.

(** * Properties of the server's start-up and of [stop] *)

Ltac decide_in :=
  cbn [In]; intuition (try discriminate; try congruence).

Lemma startup_cases (connect_error : option Z) (arena : list (Z * Z * Z)) :
  let '(self, out, st) :=
    Startup.run_startup connect_error (Startup.init arena) in
  match connect_error with
  | Some code =>
      st = Startup.Returned /\ self = Startup.init arena /\
      out = [Startup.Print "Initialize API"; Startup.ApiInit;
             Startup.ApiInitialize; Startup.ConnectAny;
             Startup.PrintConnectFailed code]
  | None =>
      match arena with
      | (lo0, hi0, res0) :: (lo1, hi1, res1) :: (lo2, hi2, res2) :: _ =>
          st = Startup.Serving /\
          self = Startup.setattr (Startup.init arena) "socket" Startup.VSocket /\
          out = [Startup.Print "Initialize API"; Startup.ApiInit;
                 Startup.ApiInitialize; Startup.ConnectAny;
                 Startup.Print "Connected to Walabot"; Startup.SetProfile;
                 Startup.SetArenaR lo0 hi0 res0;
                 Startup.SetArenaPhi lo1 hi1 res1;
                 Startup.SetArenaTheta lo2 hi2 res2;
                 Startup.Print "Arena set"; Startup.SetDynamicImageFilter;
                 Startup.Start; Startup.StartCalibration;
                 Startup.Bind "tcp://*:5556";
                 Startup.Print "Walabot server started"; Startup.ReadySet]
      | _ =>
          st = Startup.Failed Startup.IndexError /\
          self = Startup.init arena /\
          ~ In Startup.Start out /\ ~ In Startup.ReadySet out /\
          (forall endpoint, ~ In (Startup.Bind endpoint) out)
      end
  end.
Proof.
  destruct connect_error as [code |]; [cbn; auto |].
  destruct arena as [| [[lo0 hi0] res0] [| [[lo1 hi1] res1]
                     [| [[lo2 hi2] res2] rest]]]; cbn;
    repeat split; try reflexivity; try (intros; decide_in).
Qed.

(** X14.  The start-up signals readiness exactly when the device was
    connected and the arena holds at least three ranges; it then does so
    once, as its last step, after the scan was started and calibrated and
    the socket bound, and goes on to the main loop.  When the connection
    fails the method returns without raising, having printed the error
    code; with a shorter arena it raises [IndexError]; in both cases the
    scan is never started, no socket is bound and readiness is never
    signalled. *)
Theorem ready_only_when_serving (connect_error : option Z)
  (arena : list (Z * Z * Z)) :
  let '(self, out, st) :=
    Startup.run_startup connect_error (Startup.init arena) in
  (In Startup.ReadySet out <->
   connect_error = None /\ (3 <= List.length arena)%nat) /\
  (st = Startup.Serving <-> In Startup.ReadySet out) /\
  (In Startup.ReadySet out ->
   exists before,
     out = before ++ [Startup.ReadySet] /\
     ~ In Startup.ReadySet before /\
     In Startup.Start before /\ In Startup.StartCalibration before /\
     In (Startup.Bind "tcp://*:5556") before) /\
  (forall code, connect_error = Some code ->
   st = Startup.Returned /\
   In (Startup.PrintConnectFailed code) out /\
   ~ In Startup.Start out /\
   forall endpoint, ~ In (Startup.Bind endpoint) out) /\
  (connect_error = None -> (List.length arena < 3)%nat ->
   st = Startup.Failed Startup.IndexError /\
   ~ In Startup.Start out /\
   forall endpoint, ~ In (Startup.Bind endpoint) out).
Proof.
  pose proof (startup_cases connect_error arena) as Hcases.
  destruct (Startup.run_startup connect_error (Startup.init arena))
    as [[self out] st].
  destruct connect_error as [code |].
  - destruct Hcases as (-> & _ & ->).
    assert (Hno : ~ In Startup.ReadySet
                      [Startup.Print "Initialize API"; Startup.ApiInit;
                       Startup.ApiInitialize; Startup.ConnectAny;
                       Startup.PrintConnectFailed code]) by decide_in.
    split; [split; [intros H; contradiction | intros [H _]; discriminate H] |].
    split; [split; [discriminate | intros H; contradiction] |].
    split; [intros H; contradiction |].
    split; [| intros H; discriminate H].
    intros c Hc. inversion Hc; subst c.
    split; [reflexivity |].
    split; [decide_in |].
    split; [decide_in | intros endpoint; decide_in].
  - destruct arena as [| [[lo0 hi0] res0] [| [[lo1 hi1] res1]
                       [| [[lo2 hi2] res2] rest]]].
    1-3: destruct Hcases as (-> & _ & Hstart & Hready & Hbind);
      (split; [split; [intros H; contradiction
                      | intros [_ H]; cbn in H; lia] |]);
      (split; [split; [discriminate | intros H; contradiction] |]);
      (split; [intros H; contradiction |]);
      (split; [intros c H; discriminate H |]);
      intros _ _; split; [reflexivity | split; assumption].
    destruct Hcases as (-> & _ & ->).
    split; [split; [intros _; split; [reflexivity | cbn; lia]
                   | intros _; decide_in] |].
    split; [split; [intros _; decide_in | reflexivity] |].
    split; [| split; [intros c H; discriminate H
                     | intros _ H; cbn in H; lia]].
    intros _.
    exists [Startup.Print "Initialize API"; Startup.ApiInit;
            Startup.ApiInitialize; Startup.ConnectAny;
            Startup.Print "Connected to Walabot"; Startup.SetProfile;
            Startup.SetArenaR lo0 hi0 res0;
            Startup.SetArenaPhi lo1 hi1 res1;
            Startup.SetArenaTheta lo2 hi2 res2;
            Startup.Print "Arena set"; Startup.SetDynamicImageFilter;
            Startup.Start; Startup.StartCalibration;
            Startup.Bind "tcp://*:5556";
            Startup.Print "Walabot server started"].
    split; [reflexivity |].
    split; [decide_in |].
    split; [decide_in |].
    split; decide_in.
Qed.

Lemma ready_only_when_serving_witness :
  snd (Startup.run_startup None (Startup.init Startup.ARENA)) = Startup.Serving
  /\ snd (Startup.run_startup (Some 7) (Startup.init Startup.ARENA))
     = Startup.Returned.
Proof.
  split.
  - pose proof (ready_only_when_serving None Startup.ARENA) as H.
    destruct (Startup.run_startup None (Startup.init Startup.ARENA))
      as [[self out] st] eqn:Hrun.
    destruct H as (Hready & Hserving & _).
    apply Hserving, Hready. split; [reflexivity | cbn; lia].
  - pose proof (ready_only_when_serving (Some 7) Startup.ARENA) as H.
    destruct (Startup.run_startup (Some 7) (Startup.init Startup.ARENA))
      as [[self out] st] eqn:Hrun.
    destruct H as (_ & _ & _ & Hfail & _).
    exact (proj1 (Hfail 7 eq_refl)).
Defined.

(** X15.  [stop] cannot work: the object never gets an attribute
    [WalabotAPI] (the module is imported into a local name of [run]), so on
    a fresh object and on one whose [run] has gone through its start-up,
    however that ended, [stop] raises [AttributeError] and neither stops
    the scan nor disconnects the device. *)
Theorem stop_raises_attribute_error (connect_error : option Z)
  (arena : list (Z * Z * Z)) :
  Startup.stop (Startup.init arena)
    = ([], Some (Startup.AttributeError "WalabotAPI")) /\
  Startup.stop (fst (fst (Startup.run_startup connect_error
                            (Startup.init arena))))
    = ([], Some (Startup.AttributeError "WalabotAPI")).
Proof.
  split; [reflexivity |].
  pose proof (startup_cases connect_error arena) as Hcases.
  destruct (Startup.run_startup connect_error (Startup.init arena))
    as [[self out] st].
  cbn [fst].
  destruct connect_error as [code |].
  - destruct Hcases as (_ & -> & _). reflexivity.
  - destruct arena as [| [[lo0 hi0] res0] [| [[lo1 hi1] res1]
                       [| [[lo2 hi2] res2] rest]]];
      destruct Hcases as (_ & -> & _); reflexivity.
Qed.
